(** * Leave quota and alpha ledger of karyawan-kita-backend

    A shallow embedding of the leave service (monthly leave quota), the
    leave-request routes and the alpha (unexcused absence) routes, with the
    properties of the quota life cycle and of the absence ledger.

    Conventions of the embedding:
    - a JavaScript [Date] is the integer number of milliseconds since the
      epoch (its time value); invalid dates are outside the model;
    - numbers that the code uses as integers (quotas, counters, ids) are
      [Z]; the arithmetic of [calculateLeaveDays], the one place where the
      code divides, is that of IEEE 754 doubles: a double is the rational it
      denotes and every operation rounds its exact result to the nearest
      double;
    - the Prisma tables are finite maps from the primary key to the row, the
      upload directory is a finite set of file names;
    - an [async] function that reads and writes the database is a function
      from the state of the world to an outcome and a new state; a thrown
      exception keeps the writes done before it. *)

From Stdlib Require Import ZArith QArith Qround Qreduction Qabs SpecFloat Lia.
From stdpp Require Import base option list gmap strings pretty sorting.

Local Open Scope string_scope.
Local Open Scope Z_scope.

(** ** The JavaScript runtime pieces the code relies on *)

Module Js.

(** [String.prototype.padStart(n, "0")]. *)
Definition padStart0 (n : nat) (s : string) : string :=
  String.concat "" (replicate (n - String.length s) "0") ++ s.

Definition msPerDay : Z := 1000 * 60 * 60 * 24.

(** Civil date (year, month 1..12, day 1..31) of a day number counted from
    1970-01-01, in the proleptic Gregorian calendar. *)
Definition civil_from_days (days : Z) : Z * Z * Z :=
  let z := days + 719468 in
  let era := z / 146097 in
  let doe := z - era * 146097 in
  let yoe := (doe - doe / 1460 + doe / 36524 - doe / 146096) / 365 in
  let y := yoe + era * 400 in
  let doy := doe - (365 * yoe + yoe / 4 - yoe / 100) in
  let mp := (5 * doy + 2) / 153 in
  let d := doy - (153 * mp + 2) / 5 + 1 in
  let m := if mp <? 10 then mp + 3 else mp - 9 in
  (if m <=? 2 then y + 1 else y, m, d).

(** A time value read on a calendar: [t] is in milliseconds. *)
Definition fullYearOf (t : Z) : Z := (civil_from_days (t / msPerDay)).1.1.
(** Month index 0..11, as [getMonth] and [getUTCMonth] return it. *)
Definition monthOf (t : Z) : Z := (civil_from_days (t / msPerDay)).1.2 - 1.
Definition dateOf (t : Z) : Z := (civil_from_days (t / msPerDay)).2.

(** The year of [toISOString]: four digits, or a sign and six digits
    outside 0..9999. *)
Definition isoYear (y : Z) : string :=
  if (0 <=? y) && (y <=? 9999) then padStart0 4 (pretty y)
  else (if y <? 0 then "-" else "+") ++ padStart0 6 (pretty (Z.abs y)).

(** [Date.prototype.toISOString], always in UTC. *)
Definition toISOString (t : Z) : string :=
  let ms := t mod msPerDay in
  isoYear (fullYearOf t) ++ "-" ++ padStart0 2 (pretty (monthOf t + 1))
    ++ "-" ++ padStart0 2 (pretty (dateOf t))
    ++ "T" ++ padStart0 2 (pretty (ms / 3600000))
    ++ ":" ++ padStart0 2 (pretty (ms / 60000 mod 60))
    ++ ":" ++ padStart0 2 (pretty (ms / 1000 mod 60))
    ++ "." ++ padStart0 3 (pretty (ms mod 1000)) ++ "Z".

(** The system clock read by [new Date()]: the current instant and the
    offset of the local time zone from UTC, both in milliseconds. The offset
    is the same for every date (no daylight saving). *)
Record Clock := MkClock { instant : Z; utcOffset : Z }.

(** [getFullYear] and [getMonth] read the local calendar. *)
Definition getFullYear (c : Clock) : Z := fullYearOf (instant c + utcOffset c).
Definition getMonth (c : Clock) : Z := monthOf (instant c + utcOffset c).

(** Day number, counted from 1970-01-01, of a civil date; linear in the
    day, so that day 0 is the last day of the month before. *)
Definition days_from_civil (y m d : Z) : Z :=
  let y := if m <=? 2 then y - 1 else y in
  let era := y / 400 in
  let yoe := y - era * 400 in
  let doy := (153 * (if 2 <? m then m - 3 else m + 9) + 2) / 5 + d - 1 in
  let doe := yoe * 365 + yoe / 4 - yoe / 100 + doy in
  era * 146097 + doe - 719468.

(** [new Date(year, monthIndex, day, hours, minutes, seconds)]: the fields
    are local time; a year from 0 to 99 means 1900 + year; a month index
    outside 0..11 carries into the year. The time zone has one offset all
    year, as Asia/Jakarta, the zone the code names, has. *)
Definition newDate (c : Clock) (year monthIndex day hours minutes seconds : Z) : Z :=
  let yr := if (0 <=? year) && (year <=? 99) then 1900 + year else year in
  let y := yr + monthIndex / 12 in
  let m := monthIndex mod 12 + 1 in
  days_from_civil y m day * msPerDay
    + ((hours * 60 + minutes) * 60 + seconds) * 1000 - utcOffset c.

(** [s.split("T")[0]]. *)
Definition beforeT (s : string) : string :=
  match String.index 0 "T" s with
  | Some n => String.substring 0 n s
  | None => s
  end.

(** *** Numbers: IEEE 754 binary64

    A finite double is the rational number it denotes. The values of this
    code stay far from overflow and from the subnormal range, so a double is
    a significand of at most 53 bits times a power of two, and an operation
    returns the double nearest to its exact result, ties going to the even
    significand. *)

(** [floor (log2 (n / d))] for positive [n] and [d]. *)
Definition ilog2 (n d : Z) : Z :=
  let l := Z.log2 n - Z.log2 d in
  if (if 0 <=? l then d * 2 ^ l <=? n else d <=? n * 2 ^ (- l)) then l else l - 1.

(** The integer nearest to [N / D], the even one of two that are equally
    near. *)
Definition nearest (N D : Z) : Z :=
  let m := N / D in
  let r := N mod D in
  if 2 * r <? D then m
  else if D <? 2 * r then m + 1
  else if Z.even m then m else m + 1.

(** Significand and exponent of the double nearest to [n / d], for positive
    [n] and [d]: the exponent leaves 53 bits to the significand. *)
Definition round_pos (n d : Z) : Z * Z :=
  let e := ilog2 n d - 52 in
  (if e <? 0 then nearest (n * 2 ^ (- e)) d else nearest n (d * 2 ^ e), e).

(** The rational [m * 2 ^ e]. *)
Definition scale (me : Z * Z) : Q :=
  if me.2 <? 0 then Qmake me.1 (Z.to_pos (2 ^ (- me.2)))
  else inject_Z (me.1 * 2 ^ me.2).

(** The double nearest to a rational. *)
Definition round (q : Q) : Q :=
  let q := Qred q in
  match Qnum q with
  | 0 => 0%Q
  | Zpos n => scale (round_pos (Zpos n) (Zpos (Qden q)))
  | Zneg n => Qopp (scale (round_pos (Zpos n) (Zpos (Qden q))))
  end.

(** The operators [-], [+] and [/] on numbers, [Math.abs] and [Math.ceil]. *)
Definition fsub (x y : Q) : Q := round (x - y).
Definition fadd (x y : Q) : Q := round (x + y).
Definition fdiv (x y : Q) : Q := round (x / y).
Definition abs (x : Q) : Q := Qabs x.
Definition ceil (x : Q) : Q := inject_Z (Qceiling x).

(** The rational that a finite double of the Standard Library's
    specification of binary64 denotes. *)
Definition of_spec_float (x : spec_float) : Q :=
  match x with
  | S754_finite s m e => if s then Qopp (scale (Zpos m, e)) else scale (Zpos m, e)
  | _ => 0%Q
  end.

End Js.

(** ** services/leaveService: pure helpers *)

(** Number of days between two dates, first and last day included. The time
    value of a valid [Date] is an integer of at most 8.64e15 in magnitude,
    which is a double; the result is an integer. *)
Definition calculateLeaveDays (startDate endDate : Z) : Z :=
  let start := inject_Z startDate in
  let end_ := inject_Z endDate in
  let diffTime := Js.abs (Js.fsub end_ start) in
  let diffDays :=
    Js.fadd (Js.ceil (Js.fdiv diffTime (inject_Z (1000 * 60 * 60 * 24)))) 1 in
  Qfloor diffDays.

(** Current month in YYYY-MM format. *)
Definition getCurrentMonth (clock : Js.Clock) : string :=
  let year := Js.getFullYear clock in
  let month := Js.padStart0 2 (pretty (Js.getMonth clock + 1)) in
  pretty year ++ "-" ++ month.

(** ** The persistent state: Prisma tables and the upload directory *)

(** Row of the [employee] table (the columns the code reads or writes). *)
Record Employee := MkEmployee {
  nama_lengkap : string;
  jabatan : string;
  current_month : string;
  monthly_leave_quota : Z;
  used_leave_days_this_month : Z;
}.

(** Row of the [leaveRequest] table. *)
Record LeaveRequest := MkLeaveRequest {
  employee_id : Z;
  tanggal_pengajuan : Z;
  tanggal_mulai : Z;
  tanggal_selesai : Z;
  jenis_pengajuan : string;
  alasan : string;
  status : string;
  total_days : Z;
  attachment_path : option string;
  attachment_filename : option string;
}.

(** Row of the [attendance] table. *)
Record Attendance := MkAttendance {
  att_employee_id : Z;
  tanggal : Z;
  att_status : string;
  keterangan : string;
  recorded_by_role : string;
}.

Record World := MkWorld {
  employee : gmap Z Employee;
  leaveRequest : gmap Z LeaveRequest;
  attendance : gmap Z Attendance;
  uploads : gset string;
}.

Definition set_employee (f : gmap Z Employee → gmap Z Employee) (w : World) : World :=
  MkWorld (f (employee w)) (leaveRequest w) (attendance w) (uploads w).
Definition set_leaveRequest (f : gmap Z LeaveRequest → gmap Z LeaveRequest) (w : World) : World :=
  MkWorld (employee w) (f (leaveRequest w)) (attendance w) (uploads w).
Definition set_attendance (f : gmap Z Attendance → gmap Z Attendance) (w : World) : World :=
  MkWorld (employee w) (leaveRequest w) (f (attendance w)) (uploads w).
Definition set_uploads (f : gset string → gset string) (w : World) : World :=
  MkWorld (employee w) (leaveRequest w) (attendance w) (f (uploads w)).

Arguments set_employee _ _ : simpl never.
Arguments set_leaveRequest _ _ : simpl never.
Arguments set_attendance _ _ : simpl never.
Arguments set_uploads _ _ : simpl never.

(** ** Effects: state and exceptions *)

(** What a JavaScript [throw] carries here: an [Error] with its message, or
    the error of a Prisma write whose row does not exist. *)
Inductive Exn :=
  | Error (message : string)
  | RecordNotFound.

Inductive Outcome (A : Type) :=
  | Ok (a : A)
  | Throw (e : Exn).
Arguments Ok {A} a.
Arguments Throw {A} e.

Definition M (A : Type) : Type := World → Outcome A * World.

Definition ret {A} (a : A) : M A := λ w, (Ok a, w).
Definition bind {A B} (m : M A) (k : A → M B) : M B :=
  λ w, match m w with
       | (Ok a, w') => k a w'
       | (Throw e, w') => (Throw e, w')
       end.
Definition throw {A} (e : Exn) : M A := λ w, (Throw e, w).
Definition gets {A} (f : World → A) : M A := λ w, (Ok (f w), w).
Definition modify (f : World → World) : M unit := λ w, (Ok tt, f w).
(** [try { m } catch (error) { h error }]. *)
Definition try_catch {A} (m : M A) (h : Exn → M A) : M A :=
  λ w, match m w with
       | (Ok a, w') => (Ok a, w')
       | (Throw e, w') => h e w'
       end.

Notation "'let*' x ':=' m 'in' k" := (bind m (λ x, k))
  (at level 10, x binder, m at level 100, k at level 200).
Notation "m ';;;' k" := (bind m (λ _, k))
  (at level 100, k at level 200, right associativity).

Definition mapM {A B} (f : A → B) (m : M A) : M B := bind m (λ a, ret (f a)).
Notation "f '<$$>' m" := (mapM f m) (at level 61, left associativity).

(** [error.message]. *)
Definition exn_message (e : Exn) : string :=
  match e with
  | Error m => m
  | RecordNotFound => "Record to update not found."
  end.

(** *** Prisma client *)

Module prisma.

Definition employee_findUnique (id : Z) : M (option Employee) :=
  gets (λ w, employee w !! id).
(** [update] rejects when the row does not exist. *)
Definition employee_update (id : Z) (data : Employee → Employee) : M unit :=
  let* row := employee_findUnique id in
  match row with
  | Some e => modify (set_employee <[id := data e]>)
  | None => throw RecordNotFound
  end.

Definition leaveRequest_findUnique (id : Z) : M (option LeaveRequest) :=
  gets (λ w, leaveRequest w !! id).
Definition leaveRequest_update (id : Z) (data : LeaveRequest → LeaveRequest) : M LeaveRequest :=
  let* row := leaveRequest_findUnique id in
  match row with
  | Some l => modify (set_leaveRequest <[id := data l]>) ;;; ret (data l)
  | None => throw RecordNotFound
  end.
Definition leaveRequest_delete (id : Z) : M unit :=
  let* row := leaveRequest_findUnique id in
  match row with
  | Some _ => modify (set_leaveRequest (delete id))
  | None => throw RecordNotFound
  end.
(** The key of a new row: one more than the largest key in use. *)
Definition next_id {A} (m : gmap Z A) : Z :=
  1 + map_fold (λ k _ acc, Z.max k acc) 0 m.
Definition leaveRequest_create (data : LeaveRequest) : M (Z * LeaveRequest) :=
  let* id := gets (λ w, next_id (leaveRequest w)) in
  modify (set_leaveRequest <[id := data]>) ;;; ret (id, data).

Definition attendance_findUnique (id : Z) : M (option Attendance) :=
  gets (λ w, attendance w !! id).
Definition attendance_update (id : Z) (data : Attendance → Attendance) : M Attendance :=
  let* row := attendance_findUnique id in
  match row with
  | Some a => modify (set_attendance <[id := data a]>) ;;; ret (data a)
  | None => throw RecordNotFound
  end.
Definition attendance_delete (id : Z) : M unit :=
  let* row := attendance_findUnique id in
  match row with
  | Some _ => modify (set_attendance (delete id))
  | None => throw RecordNotFound
  end.
(** [findMany({ where })]: the rows that satisfy the filter, with their keys. *)
Definition attendance_findMany (where_ : Attendance → bool) : M (list (Z * Attendance)) :=
  gets (λ w, filter (λ kr, where_ kr.2 = true) (map_to_list (attendance w))).
Definition leaveRequest_findMany (where_ : LeaveRequest → bool) : M (list (Z * LeaveRequest)) :=
  gets (λ w, filter (λ kr, where_ kr.2 = true) (map_to_list (leaveRequest w))).

End prisma.

(** ** services/leaveService: the quota manager *)

Definition with_current_month (m : string) (used : Z) (e : Employee) : Employee :=
  MkEmployee (nama_lengkap e) (jabatan e) m (monthly_leave_quota e) used.
Definition with_used (used : Z) (e : Employee) : Employee :=
  MkEmployee (nama_lengkap e) (jabatan e) (current_month e) (monthly_leave_quota e) used.

Record QuotaInfo := MkQuotaInfo {
  quota : Z;
  used : Z;
  remaining : Z;
  wasReset : bool;
}.

(** The two errors the service throws, under the names of the design. *)
Definition NotFound : Exn := Error "Karyawan tidak ditemukan.".
Definition QuotaExceeded : Exn := Error "Kuota cuti bulan ini tidak mencukupi.".

(** Reset the quota when the month has changed. *)
Definition checkAndResetMonthlyQuota (clock : Js.Clock) (employeeId : Z) : M QuotaInfo :=
  let currentMonth := getCurrentMonth clock in
  let* employee := prisma.employee_findUnique employeeId in
  match employee with
  | None => throw NotFound
  | Some employee =>
    if negb (String.eqb (current_month employee) currentMonth) then
      prisma.employee_update employeeId (with_current_month currentMonth 0) ;;;
      ret (MkQuotaInfo (monthly_leave_quota employee) 0
             (monthly_leave_quota employee) true)
    else
      ret (MkQuotaInfo (monthly_leave_quota employee)
             (used_leave_days_this_month employee)
             (monthly_leave_quota employee - used_leave_days_this_month employee)
             false)
  end.

Record QuotaCheck := MkQuotaCheck {
  qc_quota : Z;
  qc_used : Z;
  qc_remaining : Z;
  qc_requested : Z;
  qc_sufficient : bool;
  qc_month : string;
}.

(** Check this month's quota. *)
Definition checkLeaveQuota (clock : Js.Clock) (employeeId requestedDays : Z) : M QuotaCheck :=
  let* quotaInfo := checkAndResetMonthlyQuota clock employeeId in
  ret (MkQuotaCheck (quota quotaInfo) (used quotaInfo) (remaining quotaInfo)
         requestedDays (requestedDays <=? remaining quotaInfo)
         (getCurrentMonth clock)).

(** Add days to the employee's used quota after an approval. *)
Definition updateEmployeeLeaveQuota (clock : Js.Clock) (employeeId additionalDays : Z) : M unit :=
  checkAndResetMonthlyQuota clock employeeId ;;;
  let* employee := prisma.employee_findUnique employeeId in
  match employee with
  | None => throw NotFound
  | Some employee =>
    let newUsedDays := used_leave_days_this_month employee + additionalDays in
    if monthly_leave_quota employee <? newUsedDays then throw QuotaExceeded
    else prisma.employee_update employeeId (with_used newUsedDays)
  end.

(** Give days back when a leave is cancelled or rejected. *)
Definition restoreLeaveQuota (clock : Js.Clock) (employeeId days : Z) : M unit :=
  let* employee := prisma.employee_findUnique employeeId in
  match employee with
  | None => throw NotFound
  | Some employee =>
    let currentMonth := getCurrentMonth clock in
    if String.eqb (current_month employee) currentMonth then
      let newUsedDays := Z.max 0 (used_leave_days_this_month employee - days) in
      prisma.employee_update employeeId (with_used newUsedDays)
    else ret tt
  end.

(** ** HTTP responses *)

Inductive Body :=
  | ErrorJson (error : string)
  | ErrorDetailsJson (error details : string)
  | MessageJson (message : string)
  | LeaveJson (leave_id : Z) (row : LeaveRequest)
  | CreatedJson (leave_id : Z) (row : LeaveRequest) (message : string)
  | QuotaJson (employee_name month : string) (total_quota used_days remaining_days : Z)
  | ErrorProvidedJson (error provided : string)
  | ErrorStatusJson (error current_status : string)
  | DeletedJson (message : string) (attendance_id : Z)
      (employee_name tanggal deleted_by reason : string)
  | ConvertedJson (message : string) (attendance_id : Z)
      (employee_name tanggal old_status new_status keterangan converted_by : string)
  | EmployeeAlphaJson (employee_id : Z) (employee_name period_start period_end : string)
      (alpha_count total_deduction : Z) (records : list (Z * Attendance))
  | SummaryJson (month year total_alpha_records total_deduction employees_affected : Z)
      (top_10 all_employees : list (Z * string * string * Z * Z)).

Record Response := MkResponse { code : Z; body : Body }.

(** [fs.existsSync(p)] and [fs.unlinkSync(p)] for a file of the directory
    uploads/sick-letters. *)
Definition existsSync (filename : string) : M bool :=
  gets (λ w, bool_decide (filename ∈ uploads w)).
Definition unlinkSync (filename : string) : M unit :=
  modify (set_uploads (λ fs, fs ∖ {[filename]})).

(** ** routes/leaveRoutes *)

Module leaveRoutes.

(** The request of [POST /]: the authenticated employee, the form fields
    (dates already parsed) and the file the upload middleware stored. *)
Record PostRequest := MkPostRequest {
  user_employeeId : Z;
  body_tanggal_mulai : Z;
  body_tanggal_selesai : Z;
  body_jenis_pengajuan : string;
  body_alasan : string;
  file : option string;
}.

(** POST - create a leave request (with a file upload for "Sakit"). *)
Definition post (clock : Js.Clock) (req : PostRequest) : M Response :=
  try_catch
    (let employeeId := user_employeeId req in
     if String.eqb (body_jenis_pengajuan req) "Sakit" && negb (bool_decide (is_Some (file req)))
     then ret (MkResponse 400 (ErrorJson "Surat keterangan sakit (PDF) wajib di-upload."))
     else
       let startDate := body_tanggal_mulai req in
       let endDate := body_tanggal_selesai req in
       let totalDays := calculateLeaveDays startDate endDate in
       let create :=
         let leaveData :=
           MkLeaveRequest employeeId (Js.instant clock) startDate endDate
             (body_jenis_pengajuan req) (body_alasan req) "pending" totalDays
             ((λ f, "/uploads/sick-letters/" ++ f) <$> file req) (file req) in
         let* newLeave := prisma.leaveRequest_create leaveData in
         ret (MkResponse 201
                (CreatedJson newLeave.1 newLeave.2 "Pengajuan berhasil dikirim.")) in
       if String.eqb (body_jenis_pengajuan req) "Cuti" then
         let* quotaCheck := checkLeaveQuota clock employeeId totalDays in
         if negb (qc_sufficient quotaCheck) then
           ret (MkResponse 400
                  (ErrorJson ("Kuota tidak mencukupi! Sisa: "
                               ++ pretty (qc_remaining quotaCheck) ++ " hari.")))
         else create
       else create)
    (λ error,
       match file req with
       | Some filename =>
         let* there := existsSync filename in
         if there then unlinkSync filename else ret tt
       | None => ret tt
       end ;;;
       ret (MkResponse 400 (ErrorDetailsJson "Gagal mengajukan." (exn_message error)))).

Definition with_status (s : string) (l : LeaveRequest) : LeaveRequest :=
  MkLeaveRequest (employee_id l) (tanggal_pengajuan l) (tanggal_mulai l)
    (tanggal_selesai l) (jenis_pengajuan l) (alasan l) s (total_days l)
    (attachment_path l) (attachment_filename l).

(** PUT /:id/status - update the status. *)
Definition put_status (clock : Js.Clock) (id : Z) (status_ : string) : M Response :=
  try_catch
    (let* leaveRequest := prisma.leaveRequest_findUnique id in
     match leaveRequest with
     | None => ret (MkResponse 404 (ErrorJson "Data tidak ditemukan."))
     | Some leaveRequest =>
       let previousStatus := status leaveRequest in
       (if String.eqb status_ "approved"
           && String.eqb previousStatus "pending"
           && String.eqb (jenis_pengajuan leaveRequest) "Cuti"
        then
          let leaveMonth :=
            String.substring 0 7 (Js.toISOString (tanggal_mulai leaveRequest)) in
          if String.eqb leaveMonth (getCurrentMonth clock) then
            updateEmployeeLeaveQuota clock (employee_id leaveRequest)
              (total_days leaveRequest)
          else ret tt
        else ret tt) ;;;
       let* updated := prisma.leaveRequest_update id (with_status status_) in
       ret (MkResponse 200 (LeaveJson id updated))
     end)
    (λ error, ret (MkResponse 400 (ErrorJson "Gagal update status."))).

(** DELETE /:id. *)
Definition delete (id : Z) : M Response :=
  try_catch
    (let* leaveRequest := prisma.leaveRequest_findUnique id in
     match leaveRequest with
     | None => ret (MkResponse 404 (ErrorJson "Data tidak ditemukan."))
     | Some leaveRequest =>
       match attachment_filename leaveRequest with
       | Some filename =>
         if String.eqb filename "" then ret tt
         else
           let* there := existsSync filename in
           if there then unlinkSync filename else ret tt
       | None => ret tt
       end ;;;
       prisma.leaveRequest_delete id ;;;
       ret (MkResponse 200 (MessageJson "Berhasil dihapus."))
     end)
    (λ error, ret (MkResponse 500 (ErrorJson "Gagal menghapus."))).

(** GET /quota. [employeeId] is [req.user.employeeId || req.user.employee_id],
    absent when the token carries neither; an absent id and the id 0 are
    falsy. *)
Definition get_quota (clock : Js.Clock) (employeeId : option Z) : M Response :=
  try_catch
    (match employeeId with
     | None => ret (MkResponse 400 (ErrorJson "Employee ID tidak ditemukan."))
     | Some employeeId =>
       if employeeId =? 0 then
         ret (MkResponse 400 (ErrorJson "Employee ID tidak ditemukan."))
       else
         checkAndResetMonthlyQuota clock employeeId ;;;
         let* employee := prisma.employee_findUnique employeeId in
         match employee with
         | None => throw (Error "Cannot read properties of null")
         | Some employee =>
           ret (MkResponse 200
                  (QuotaJson (nama_lengkap employee) (getCurrentMonth clock)
                     (monthly_leave_quota employee)
                     (used_leave_days_this_month employee)
                     (monthly_leave_quota employee
                      - used_leave_days_this_month employee)))
         end
     end)
    (λ error, ret (MkResponse 500 (ErrorJson "Gagal mengambil kuota."))).

End leaveRoutes.

(** ** routes/alphaRoutes *)

Module alphaRoutes.

Definition TypeError : Exn := Error "Cannot read properties of null".

(** [record.employee.nama_lengkap] on a row fetched with
    [include: { employee }]: the related row is looked up by the foreign
    key, and reading a field of a missing one throws. *)
Definition employee_of (record : Attendance) : M Employee :=
  let* e := prisma.employee_findUnique (att_employee_id record) in
  match e with
  | Some e => ret e
  | None => throw TypeError
  end.

(** DELETE /remove/:attendance_id - delete an alpha record. *)
Definition delete_remove (username : string) (attendance_id : Z) (reason : string)
  : M Response :=
  try_catch
    (let* record := prisma.attendance_findUnique attendance_id in
     match record with
     | None => ret (MkResponse 404 (ErrorJson "Record tidak ditemukan"))
     | Some record =>
       if negb (String.eqb (att_status record) "alpa") then
         ret (MkResponse 400
                (ErrorStatusJson "Record ini bukan alpha record" (att_status record)))
       else
         prisma.attendance_delete attendance_id ;;;
         let* e := employee_of record in
         ret (MkResponse 200
                (DeletedJson "Alpha record berhasil dihapus" attendance_id
                   (nama_lengkap e) (Js.beforeT (Js.toISOString (tanggal record)))
                   username (if String.eqb reason "" then "Not specified" else reason)))
     end)
    (λ error,
       ret (MkResponse 500
              (ErrorDetailsJson "Gagal menghapus alpha record" (exn_message error)))).

Definition convert_data (new_status keterangan_ username : string) (a : Attendance)
  : Attendance :=
  MkAttendance (att_employee_id a) (tanggal a) new_status
    (if String.eqb keterangan_ "" then
       "Converted from alpha to " ++ new_status ++ " by " ++ username
     else keterangan_)
    (recorded_by_role a).

(** PUT /convert/:attendance_id - convert an alpha to another status. *)
Definition put_convert (username : string) (attendance_id : Z)
    (new_status keterangan_ : string) : M Response :=
  try_catch
    (if negb (existsb (String.eqb new_status) ["hadir"; "izin"; "sakit"]) then
       ret (MkResponse 400
              (ErrorProvidedJson "Status harus: hadir, izin, atau sakit" new_status))
     else
       let* record := prisma.attendance_findUnique attendance_id in
       match record with
       | None => ret (MkResponse 404 (ErrorJson "Record tidak ditemukan"))
       | Some record =>
         if negb (String.eqb (att_status record) "alpa") then
           ret (MkResponse 400
                  (ErrorStatusJson "Record ini bukan alpha record" (att_status record)))
         else
           let* updated :=
             prisma.attendance_update attendance_id
               (convert_data new_status keterangan_ username) in
           let* e := employee_of updated in
           ret (MkResponse 200
                  (ConvertedJson
                     ("Alpha record berhasil diubah menjadi " ++ new_status)
                     attendance_id (nama_lengkap e)
                     (Js.beforeT (Js.toISOString (tanggal updated)))
                     "alpa" new_status (keterangan updated) username))
       end)
    (λ error,
       ret (MkResponse 500
              (ErrorDetailsJson "Gagal mengubah alpha record" (exn_message error)))).

(** A stable sort by insertion: [x] goes before the first element that the
    comparison does not put before it. *)
Fixpoint insert_by {A} (cmp : A → A → Z) (x : A) (l : list A) : list A :=
  match l with
  | [] => [x]
  | y :: l' => if cmp x y <=? 0 then x :: l else y :: insert_by cmp x l'
  end.
Definition sort_by {A} (cmp : A → A → Z) (l : list A) : list A :=
  foldr (insert_by cmp) [] l.

(** [orderBy: { tanggal: "desc" }]. *)
Definition orderBy_tanggal_desc (rows : list (Z * Attendance)) : list (Z * Attendance) :=
  sort_by (λ a b, tanggal b.2 - tanggal a.2) rows.

(** The [where] clause of the alpha queries: status "alpa" and the date
    between the two bounds, both included. *)
Definition where_alpha (startDate endDate : Z) (a : Attendance) : bool :=
  String.eqb (att_status a) "alpa"
  && (startDate <=? tanggal a) && (tanggal a <=? endDate).



(** One entry of the summary: employee id, name, position, number of alphas
    and total deduction. *)
Definition Entry : Type := Z * string * string * Z * Z.
Definition entry_count (s : Entry) : Z := s.1.2.
Definition entry_deduction (s : Entry) : Z := s.2.

(** The body of the [forEach] that groups the records by employee. *)
Definition group_record (employeeSummary : gmap Z Entry) (record : Attendance)
  : M (gmap Z Entry) :=
  let empId := att_employee_id record in
  let* entry :=
    match employeeSummary !! empId with
    | Some s => ret s
    | None =>
      let* e := employee_of record in
      ret (empId, nama_lengkap e, jabatan e, 0, 0)
    end in
  let '(i, n, j, alpha_count, total_deduction) := entry in
  ret (<[empId := (i, n, j, alpha_count + 1, total_deduction + 100000)]> employeeSummary).

Fixpoint forEach_group (alphaRecords : list (Z * Attendance))
    (employeeSummary : gmap Z Entry) : M (gmap Z Entry) :=
  match alphaRecords with
  | [] => ret employeeSummary
  | record :: rest =>
    let* employeeSummary := group_record employeeSummary record.2 in
    forEach_group rest employeeSummary
  end.

(** [Object.values] of an object whose keys are employee ids: integer keys
    come in ascending order. *)
Definition object_values (o : gmap Z Entry) : list Entry :=
  (sort_by (λ a b, a.1 - b.1) (map_to_list o)).*2.

(** GET /summary - the alpha summary of all employees for the current month. *)
Definition get_summary (clock : Js.Clock) : M Response :=
  try_catch
    (let startDate := Js.newDate clock (Js.getFullYear clock) (Js.getMonth clock) 1 0 0 0 in
     let endDate :=
       Js.newDate clock (Js.getFullYear clock) (Js.getMonth clock + 1) 0 23 59 59 in
     let* alphaRecords :=
       orderBy_tanggal_desc <$$> prisma.attendance_findMany (where_alpha startDate endDate) in
     let* employeeSummary := forEach_group alphaRecords ∅ in
     let summary :=
       sort_by (λ a b, entry_count b - entry_count a) (object_values employeeSummary) in
     ret (MkResponse 200
            (SummaryJson (Js.getMonth clock + 1) (Js.getFullYear clock)
               (Z.of_nat (length alphaRecords))
               (Z.of_nat (length alphaRecords) * 100000)
               (Z.of_nat (length summary))
               (take 10 summary) summary)))
    (λ error,
       ret (MkResponse 500
              (ErrorDetailsJson "Gagal mengambil summary alpha" (exn_message error)))).

End alphaRoutes.

(** ** Notions used to state the properties *)

(** The month an employee's counters are in after the implicit rollover,
    and the used days then. *)
Definition rolled (clock : Js.Clock) (e : Employee) : Employee :=
  if decide (current_month e = getCurrentMonth clock) then e
  else with_current_month (getCurrentMonth clock) 0 e.

Ltac run := unfold bind, ret, throw, gets, modify, mapM, try_catch; simpl.


(** A call to the quota manager, as the callers of the service make it. *)
Inductive QuotaCall :=
  | Consume (employeeId days : Z)
  | Restore (employeeId days : Z)
  | RolloverIfNeeded (employeeId : Z).

Definition call_days (c : QuotaCall) : Z :=
  match c with
  | Consume _ days | Restore _ days => days
  | RolloverIfNeeded _ => 0
  end.

Definition call_employee (c : QuotaCall) : Z :=
  match c with
  | Consume employeeId _ | Restore employeeId _ | RolloverIfNeeded employeeId => employeeId
  end.

Definition run_call (clock : Js.Clock) (c : QuotaCall) : M unit :=
  match c with
  | Consume employeeId days => updateEmployeeLeaveQuota clock employeeId days
  | Restore employeeId days => restoreLeaveQuota clock employeeId days
  | RolloverIfNeeded employeeId => checkAndResetMonthlyQuota clock employeeId ;;; ret tt
  end.

(** A sequence of calls, each run to its end (returning or throwing) before
    the next one starts, each with the clock of its own time. *)
Fixpoint run_calls (calls : list (Js.Clock * QuotaCall)) (w : World) : World :=
  match calls with
  | [] => w
  | (clock, c) :: calls => run_calls calls (run_call clock c w).2
  end.

Definition quota_ok (e : Employee) : Prop :=
  0 ≤ used_leave_days_this_month e ≤ monthly_leave_quota e.

(** A clock and a small world for the examples: 14 February 2025, 02:26 UTC,
    read in the time zone UTC+7. *)
Definition clock_feb : Js.Clock := Js.MkClock 1739500000000 (7 * 3600000).
Definition budi : Employee := MkEmployee "Budi" "Staff" "2025-02" 12 4.
Definition world_budi : World := MkWorld {[ 1 := budi ]} ∅ ∅ ∅.
Definition budi_jan : Employee := MkEmployee "Budi" "Staff" "2025-01" 12 4.
Definition world_budi_jan : World := MkWorld {[ 1 := budi_jan ]} ∅ ∅ ∅.
Definition siti : Employee := MkEmployee "Siti" "HR" "2025-02" 12 10.

(** 10 to 13 February 2025, and 10 to 13 January 2025 (UTC midnights). *)
Definition feb10 : Z := 1739145600000.
Definition feb13 : Z := 1739404800000.
Definition jan10 : Z := 1736467200000.
Definition jan13 : Z := 1736726400000.

(** Budi's leave of four days in February, as a row of the table. *)
Definition cuti_feb (status_ : string) : LeaveRequest :=
  MkLeaveRequest 1 1739000000000 feb10 feb13 "Cuti" "liburan" status_ 4 None None.
Definition world_leave (status_ : string) : World :=
  MkWorld {[ 1 := budi ]} {[ 7 := cuti_feb status_ ]} ∅ ∅.

(** The alpha records of a period, as the alpha queries select them. *)
Definition alpha_rows (startDate endDate : Z) (w : World) : list (Z * Attendance) :=
  filter (λ kr, alphaRoutes.where_alpha startDate endDate kr.2 = true)
    (map_to_list (attendance w)).

(** The foreign key of the attendance table: every record belongs to an
    employee of the employee table. *)
Definition attendance_has_employee (w : World) : Prop :=
  map_Forall (λ _ a, is_Some (employee w !! att_employee_id a)) (attendance w).

(** An alpha record of Budi's on 10 February 2025, recorded by the system. *)
Definition alpa_feb10 : Attendance := MkAttendance 1 feb10 "alpa" "" "System".
Definition world_alpa : World :=
  MkWorld {[ 1 := budi ]} ∅ {[ 5 := alpa_feb10; 6 := MkAttendance 1 feb13 "alpa" "" "System" ]} ∅.

(** The row that [POST /] hands to [leaveRequest.create]. *)
Definition new_leave (clock : Js.Clock) (req : leaveRoutes.PostRequest) : LeaveRequest :=
  MkLeaveRequest (leaveRoutes.user_employeeId req) (Js.instant clock)
    (leaveRoutes.body_tanggal_mulai req) (leaveRoutes.body_tanggal_selesai req)
    (leaveRoutes.body_jenis_pengajuan req) (leaveRoutes.body_alasan req) "pending"
    (calculateLeaveDays (leaveRoutes.body_tanggal_mulai req)
       (leaveRoutes.body_tanggal_selesai req))
    ((λ f, "/uploads/sick-letters/" ++ f) <$> leaveRoutes.file req)
    (leaveRoutes.file req).

(** The number of records of one employee in a list of attendance rows. *)
Definition count_for (empId : Z) (rows : list (Z * Attendance)) : Z :=
  Z.of_nat (length (filter (λ kr, att_employee_id kr.2 = empId) rows)).

Definition entry_id (s : alphaRoutes.Entry) : Z := s.1.1.1.1.

(** What the summary holds for the records grouped so far: one entry per
    employee with a record, under the employee's id, with the number of the
    employee's records and 100000 for each. *)
Definition grouped (rows : list (Z * Attendance)) (acc : gmap Z alphaRoutes.Entry) : Prop :=
  ∀ k, match acc !! k with
       | Some s =>
         entry_id s = k
         ∧ alphaRoutes.entry_count s = count_for k rows
         ∧ alphaRoutes.entry_deduction s = alphaRoutes.entry_count s * 100000
         ∧ 1 ≤ alphaRoutes.entry_count s
       | None => count_for k rows = 0
       end.

(** The inclusive day count as the design words it, in exact arithmetic:
    [ceil(|end - start| / 86400s) + 1]. *)
Definition inclusiveDayCount (start end_ : Z) : Z :=
  Qceiling (inject_Z (Z.abs (end_ - start)) / inject_Z 86400000) + 1.

(** * Properties *)

(** ** Leave-day calculator *)

Lemma nearest_bounds (N D : Z) :
  0 < D → 2 * N - D ≤ 2 * Js.nearest N D * D ≤ 2 * N + D.
Proof.
  intros HD. unfold Js.nearest.
  pose proof (Z.div_mod N D ltac:(lia)) as Hdm.
  pose proof (Z.mod_pos_bound N D HD) as Hr.
  destruct (Z.ltb_spec (2 * (N mod D)) D); [nia|].
  destruct (Z.ltb_spec D (2 * (N mod D))); [nia|].
  destruct (Z.even (N / D)); nia.
Qed.

Lemma nearest_ge (N D : Z) : 0 < D → N / D ≤ Js.nearest N D.
Proof.
  intros HD. unfold Js.nearest.
  destruct (_ <? _); [lia|]. destruct (_ <? _); [lia|]. destruct (Z.even _); lia.
Qed.

Lemma nearest_exact (N D : Z) : 0 < D → N mod D = 0 → Js.nearest N D = N / D.
Proof.
  intros HD Hr. unfold Js.nearest. rewrite Hr.
  destruct (Z.ltb_spec (2 * 0) D); [done|lia].
Qed.

Lemma ilog2_lower (n d : Z) :
  0 < n → 0 < d → 0 ≤ Js.ilog2 n d → d * 2 ^ Js.ilog2 n d ≤ n.
Proof.
  intros Hn Hd. unfold Js.ilog2.
  set (l := Z.log2 n - Z.log2 d).
  destruct (Z.leb_spec 0 l) as [Hl|Hl].
  - destruct (Z.leb_spec (d * 2 ^ l) n) as [Hc|Hc]; [done|].
    intros Hl1.
    pose proof (Z.log2_spec n Hn) as [Hn1 _].
    pose proof (Z.log2_spec d Hd) as [_ Hd2].
    assert (2 ^ Z.log2 n = 2 ^ (l - 1) * 2 ^ Z.succ (Z.log2 d)) as Heq.
    { rewrite <- Z.pow_add_r by (pose proof (Z.log2_nonneg d); lia).
      f_equal. unfold l. lia. }
    assert (0 < 2 ^ (l - 1)) by (apply Z.pow_pos_nonneg; lia).
    nia.
  - destruct (_ <=? _); lia.
Qed.

Lemma ilog2_int (n : Z) : 0 < n → Js.ilog2 n 1 = Z.log2 n.
Proof.
  intros Hn. unfold Js.ilog2. change (Z.log2 1) with 0. rewrite Z.sub_0_r.
  pose proof (Z.log2_nonneg n). pose proof (Z.log2_spec n Hn) as [H1 _].
  rewrite (proj2 (Z.leb_le 0 _)) by done.
  rewrite (proj2 (Z.leb_le _ _)) by lia. done.
Qed.

Lemma round_compat q q' : (q == q')%Q → Js.round q = Js.round q'.
Proof. intros H. unfold Js.round. by rewrite (Qred_complete q q' H). Qed.

Lemma round_0 : Js.round 0 = 0%Q.
Proof. reflexivity. Qed.

Lemma round_opp q : (Js.round (- q) == - Js.round q)%Q.
Proof.
  unfold Js.round. rewrite Qred_opp. cbv zeta.
  destruct (Qred q) as [[|n|n] d]; simpl; try reflexivity.
  symmetry. apply Qopp_involutive.
Qed.

Lemma Qred_inject_Z (z : Z) : Qred (inject_Z z) = inject_Z z.
Proof.
  pose proof (Qred_correct (inject_Z z)) as Heq.
  pose proof (gcd_Qred (inject_Z z)) as Hg.
  destruct (Qred (inject_Z z)) as [n d]. unfold Qeq in Heq. simpl in *.
  rewrite Z.mul_1_r in Heq. subst n.
  rewrite Z.gcd_comm, Z.mul_comm, Z.gcd_mul_diag_l in Hg by lia.
  assert (d = 1%positive) as -> by lia. by rewrite Z.mul_1_r.
Qed.

Lemma pow2_pos (e : Z) : 0 ≤ e → 0 < 2 ^ e.
Proof. intros. apply Z.pow_pos_nonneg; lia. Qed.

(** An integer whose bits beyond the 53 leading ones are zero is a double. *)
Lemma round_int_exact (z : Z) :
  0 ≤ z → z mod 2 ^ Z.max 0 (Z.log2 z - 52) = 0 →
  (Js.round (inject_Z z) == inject_Z z)%Q.
Proof.
  intros Hz Hmod. unfold Js.round. rewrite Qred_inject_Z. cbv zeta. simpl.
  destruct z as [|p|p]; [reflexivity| |lia].
  unfold Js.round_pos. rewrite ilog2_int by lia.
  set (e := Z.log2 (Z.pos p) - 52) in *.
  unfold Js.scale. simpl.
  destruct (Z.ltb_spec e 0) as [He|He].
  - pose proof (pow2_pos (- e) ltac:(lia)) as Hs.
    rewrite nearest_exact by (lia || apply Z.mod_1_r).
    rewrite Z.div_1_r. unfold Qeq. simpl. rewrite Z2Pos.id by done. lia.
  - pose proof (pow2_pos e He) as Hs.
    rewrite Z.max_r in Hmod by lia.
    rewrite Z.mul_1_l, nearest_exact by done.
    unfold Qeq. simpl.
    pose proof (Z.div_mod (Z.pos p) (2 ^ e) ltac:(lia)). lia.
Qed.

Lemma round_int_small (z : Z) : 0 ≤ z ≤ 2 ^ 53 → (Js.round (inject_Z z) == inject_Z z)%Q.
Proof.
  intros [Hz Hb]. apply round_int_exact; [done|].
  destruct (Z.eq_dec z 0) as [->|Hnz]; [reflexivity|].
  destruct (Z.eq_dec z (2 ^ 53)) as [->|Hne]; [reflexivity|].
  assert (Z.log2 z < 53) by (apply Z.log2_lt_pow2; lia).
  rewrite Z.max_l by lia. apply Z.mod_1_r.
Qed.

Lemma round_int_even (z : Z) :
  0 ≤ z < 2 ^ 54 → Z.even z = true → (Js.round (inject_Z z) == inject_Z z)%Q.
Proof.
  intros [Hz Hb] Hev. apply round_int_exact; [done|].
  destruct (Z.eq_dec z 0) as [->|Hnz]; [reflexivity|].
  assert (Z.log2 z < 54) by (apply Z.log2_lt_pow2; lia).
  destruct (Z.max_spec 0 (Z.log2 z - 52)) as [[Hlt ->]|[Hle ->]].
  - replace (Z.log2 z - 52) with 1 by lia.
    apply Zeven_bool_iff, Zeven_ex_iff in Hev as [k ->].
    change (2 ^ 1) with 2. rewrite Z.mul_comm. apply Z_mod_mult.
  - apply Z.mod_1_r.
Qed.

Lemma round_nonneg (q : Q) : (0 <= q)%Q → (0 <= Js.round q)%Q.
Proof.
  intros Hq. unfold Js.round. cbv zeta.
  apply Qred_le in Hq. change (Qred 0) with 0%Q in Hq.
  destruct (Qred q) as [[|n|n] d]; simpl.
  - apply Qle_refl.
  - unfold Js.round_pos, Js.scale. simpl.
    set (e := Js.ilog2 (Z.pos n) (Z.pos d) - 52).
    destruct (Z.ltb_spec e 0) as [He|He].
    + pose proof (pow2_pos (- e) ltac:(lia)).
      pose proof (nearest_ge (Z.pos n * 2 ^ (- e)) (Z.pos d) ltac:(lia)).
      pose proof (Z.div_pos (Z.pos n * 2 ^ (- e)) (Z.pos d) ltac:(lia) ltac:(lia)).
      unfold Qle. simpl. lia.
    + pose proof (pow2_pos e He).
      pose proof (nearest_ge (Z.pos n) (Z.pos d * 2 ^ e) ltac:(lia)).
      pose proof (Z.div_pos (Z.pos n) (Z.pos d * 2 ^ e) ltac:(lia) ltac:(lia)).
      unfold Qle. simpl. nia.
  - unfold Qle in Hq. simpl in Hq. lia.
Qed.

Lemma round_int_ge_1 (z : Z) : 1 ≤ z → (1 <= Js.round (inject_Z z))%Q.
Proof.
  intros Hz. unfold Js.round. rewrite Qred_inject_Z. cbv zeta. simpl.
  destruct z as [|p|p]; [lia| |lia].
  unfold Js.round_pos. rewrite ilog2_int by lia.
  set (e := Z.log2 (Z.pos p) - 52).
  unfold Js.scale. simpl.
  destruct (Z.ltb_spec e 0) as [He|He].
  - pose proof (pow2_pos (- e) ltac:(lia)) as Hs.
    rewrite nearest_exact by (lia || apply Z.mod_1_r).
    rewrite Z.div_1_r. unfold Qle. simpl. rewrite Z2Pos.id by done. nia.
  - pose proof (pow2_pos e He) as Hs. rewrite Z.mul_1_l.
    pose proof (nearest_ge (Z.pos p) (2 ^ e) Hs).
    assert (1 ≤ Z.pos p / 2 ^ e).
    { apply Z.div_le_lower_bound; [done|]. rewrite Z.mul_1_r.
      pose proof (Z.log2_spec (Z.pos p) ltac:(lia)) as [H1 _].
      etransitivity; [|exact H1]. apply Z.pow_le_mono_r; lia. }
    unfold Qle. simpl. nia.
Qed.

(** Division by the milliseconds of a day: the rounding of the quotient
    never reaches the next integer, for a dividend up to 2^53. *)
Lemma ceil_fdiv_day (X : Z) :
  0 ≤ X ≤ 2 ^ 53 →
  Qceiling (Js.round (inject_Z X / inject_Z 86400000)) = - ((- X) / 86400000).
Proof.
  intros [HX Hb].
  destruct (Z.eq_dec X 0) as [->|Hnz]; [reflexivity|].
  unfold Js.round. cbv zeta.
  pose proof (Qred_correct (inject_Z X / inject_Z 86400000)) as Heq.
  destruct (Qred (inject_Z X / inject_Z 86400000)) as [n d].
  unfold Qeq in Heq. simpl in Heq.
  assert (n * 86400000 = X * Z.pos d) as Hnd by lia. clear Heq.
  destruct n as [|n|n]; [lia| |lia]. simpl.
  unfold Js.round_pos.
  set (L := Js.ilog2 (Z.pos n) (Z.pos d)).
  assert (L ≤ 26) as HL.
  { destruct (Z.le_gt_cases L 26) as [|Hgt]; [done|]. exfalso.
    pose proof (ilog2_lower (Z.pos n) (Z.pos d) ltac:(lia) ltac:(lia) ltac:(fold L; lia))
      as Hlow. fold L in Hlow.
    assert (2 ^ 27 ≤ 2 ^ L) by (apply Z.pow_le_mono_r; lia).
    change (2 ^ 27) with 134217728 in *. change (2 ^ 53) with 9007199254740992 in *.
    nia. }
  rewrite (proj2 (Z.ltb_lt (L - 52) 0)) by lia.
  unfold Js.scale. simpl. rewrite (proj2 (Z.ltb_lt (L - 52) 0)) by lia.
  set (s := 2 ^ (- (L - 52))).
  assert (2 ^ 26 ≤ s) as Hs by (apply Z.pow_le_mono_r; lia).
  change (2 ^ 26) with 67108864 in Hs.
  pose proof (nearest_bounds (Z.pos n * s) (Z.pos d) ltac:(lia)) as [Hlo Hhi].
  set (m := Js.nearest (Z.pos n * s) (Z.pos d)) in *.
  unfold Qceiling, Qfloor. simpl. rewrite Z2Pos.id by lia.
  pose proof (Z.div_mod X 86400000 ltac:(lia)) as Hdm.
  pose proof (Z.mod_pos_bound X 86400000 ltac:(lia)) as Hr.
  set (k := X / 86400000) in *. set (r := X mod 86400000) in *.
  assert (2 * X * s - 86400000 ≤ 2 * m * 86400000 ≤ 2 * X * s + 86400000) as [Hlo' Hhi'].
  { split.
    - apply (Z.mul_le_mono_pos_r _ _ (Z.pos d)); [lia|]. nia.
    - apply (Z.mul_le_mono_pos_r _ _ (Z.pos d)); [lia|]. nia. }
  f_equal.
  destruct (Z.eq_dec r 0) as [Hr0|Hr0].
  - assert (m = k * s) as -> by nia.
    replace (- (k * s)) with ((- k) * s) by lia. rewrite Z.div_mul by lia.
    replace (- X) with ((- k) * 86400000) by lia. by rewrite Z.div_mul by lia.
  - assert (k * s < m ≤ (k + 1) * s) as [Hm1 Hm2] by nia.
    transitivity (- (k + 1)).
    + symmetry. apply Z.div_unique with (r := (k + 1) * s - m); lia.
    + apply Z.div_unique with (r := 86400000 - r); lia.
Qed.

Lemma ceil_div (a b : Z) :
  0 < b → Qceiling (inject_Z a / inject_Z b) = - ((- a) / b).
Proof.
  intros Hb. unfold Qceiling. f_equal.
  destruct b as [|p|p]; try lia.
  unfold Qfloor, Qdiv, Qinv, Qopp, Qmult, inject_Z; simpl.
  f_equal; lia.
Qed.

Lemma inclusiveDayCount_eq (a b : Z) :
  inclusiveDayCount a b = - ((- Z.abs (b - a)) / 86400000) + 1.
Proof. unfold inclusiveDayCount. by rewrite ceil_div by lia. Qed.

Lemma calculateLeaveDays_eq (a b : Z) :
  calculateLeaveDays a b =
    Qfloor (Js.round (inject_Z
      (Qceiling (Js.round (Qabs (Js.round (inject_Z (b - a))) / inject_Z 86400000)) + 1))).
Proof.
  unfold calculateLeaveDays, Js.fsub, Js.abs, Js.fdiv, Js.ceil, Js.fadd. cbv zeta.
  change (1000 * 60 * 60 * 24) with 86400000.
  rewrite (round_compat (inject_Z b - inject_Z a) (inject_Z (b - a)))
    by (unfold Z.sub, Qminus; by rewrite inject_Z_plus, inject_Z_opp).
  f_equal. apply round_compat. by rewrite inject_Z_plus.
Qed.

Lemma abs_round_opp (X : Z) :
  (Qabs (Js.round (inject_Z (- X))) == Qabs (Js.round (inject_Z X)))%Q.
Proof.
  rewrite (round_compat (inject_Z (- X)) (- inject_Z X))
    by (rewrite inject_Z_opp; reflexivity).
  rewrite round_opp. apply Qabs_opp.
Qed.

Lemma abs_round_exact (X : Z) :
  (Js.round (inject_Z (Z.abs X)) == inject_Z (Z.abs X))%Q →
  (Qabs (Js.round (inject_Z X)) == inject_Z (Z.abs X))%Q.
Proof.
  intros Hex. destruct (Z.abs_spec X) as [[Hx Ha]|[Hx Ha]].
  - rewrite Ha in *. rewrite Hex. rewrite Qabs_pos; [reflexivity|].
    change 0%Q with (inject_Z 0). rewrite <- Zle_Qle. done.
  - rewrite Ha in *. rewrite <- (Z.opp_involutive X) at 1.
    rewrite abs_round_opp, Hex. rewrite Qabs_pos; [reflexivity|].
    change 0%Q with (inject_Z 0). rewrite <- Zle_Qle. lia.
Qed.

Lemma calculateLeaveDays_of_exact (a b : Z) :
  (Js.round (inject_Z (Z.abs (b - a))) == inject_Z (Z.abs (b - a)))%Q →
  calculateLeaveDays a b =
    Qfloor (Js.round (inject_Z
      (Qceiling (Js.round (inject_Z (Z.abs (b - a)) / inject_Z 86400000)) + 1))).
Proof.
  intros Hex. rewrite calculateLeaveDays_eq.
  rewrite (round_compat (Qabs (Js.round (inject_Z (b - a))) / inject_Z 86400000)
             (inject_Z (Z.abs (b - a)) / inject_Z 86400000)).
  - reflexivity.
  - by rewrite (abs_round_exact _ Hex).
Qed.

Lemma calculateLeaveDays_pos (a b : Z) : 1 ≤ calculateLeaveDays a b.
Proof.
  rewrite calculateLeaveDays_eq.
  set (c := Qceiling _).
  assert (0 ≤ c) as Hc.
  { unfold c. change 0 with (Qceiling 0). apply Qceiling_resp_le, round_nonneg.
    apply Qle_shift_div_l; [reflexivity|]. rewrite Qmult_0_l. apply Qabs_nonneg. }
  change 1 with (Qfloor 1) at 1. apply Qfloor_resp_le, round_int_ge_1. lia.
Qed.

(** The rounding agrees with the Standard Library's specification of
    binary64: for the subtraction, absolute value, division and addition of
    the example below, and for a few ordinary quotients. *)
Example round_agrees_with_binary64 :
  let double z := binary_normalize 53 1024 z 0 false in
  let diffTime :=
    SFabs (SFsub 53 1024 (double 8639999913600001) (double (-8640000000000000))) in
  Qred (Js.of_spec_float diffTime)
  = Qred (Js.abs (Js.fsub (inject_Z 8639999913600001) (inject_Z (-8640000000000000))))
  ∧ Qred (Js.of_spec_float (SFdiv 53 1024 diffTime (double 86400000)))
    = Qred (Js.fdiv (Js.of_spec_float diffTime) (inject_Z 86400000))
  ∧ Qred (Js.of_spec_float (SFadd 53 1024 (double 199999999) (double 1)))
    = Qred (Js.fadd (inject_Z 199999999) 1)
  ∧ Forall (λ x, Qred (Js.of_spec_float (SFdiv 53 1024 (double x) (double 86400000)))
                 = Qred (Js.fdiv (inject_Z x) (inject_Z 86400000)))
      [17279999913600000; 259200000; 123456789; 1; 8640000000000001].
Proof.
  cbv zeta. split; [vm_compute; reflexivity|]. split; [vm_compute; reflexivity|].
  split; [vm_compute; reflexivity|]. repeat constructor; vm_compute; reflexivity.
Qed.

(** C9, as the code has it. For dates at most 2^53 milliseconds apart
    (about 285000 years) [calculateLeaveDays a b] is
    [ceil(|b - a| / 86400000) + 1]; for all dates it is symmetric in its
    arguments, and a date with itself gives 1. *)
Theorem calculateLeaveDays_ceil_symmetric (a b : Z) :
  (Z.abs (b - a) ≤ 2 ^ 53 → calculateLeaveDays a b = inclusiveDayCount a b)
  ∧ calculateLeaveDays a b = calculateLeaveDays b a
  ∧ calculateLeaveDays a a = 1.
Proof.
  split; [|split].
  - intros Hb. rewrite inclusiveDayCount_eq.
    pose proof (Z.abs_nonneg (b - a)) as Hx.
    rewrite calculateLeaveDays_of_exact by (apply round_int_small; lia).
    rewrite ceil_fdiv_day by lia.
    set (c := - (- Z.abs (b - a) / 86400000)).
    assert (0 ≤ c + 1 ≤ 2 ^ 53) as Hc.
    { unfold c. change (2 ^ 53) with 9007199254740992 in *.
      pose proof (Z.div_mod (- Z.abs (b - a)) 86400000 ltac:(lia)).
      pose proof (Z.mod_pos_bound (- Z.abs (b - a)) 86400000 ltac:(lia)). lia. }
    rewrite (Qfloor_comp _ _ (round_int_small (c + 1) Hc)).
    apply Qfloor_Z.
  - rewrite !calculateLeaveDays_eq.
    rewrite (round_compat (Qabs (Js.round (inject_Z (a - b))) / inject_Z 86400000)
               (Qabs (Js.round (inject_Z (b - a))) / inject_Z 86400000)); [done|].
    replace (a - b) with (- (b - a)) by lia. by rewrite abs_round_opp.
  - rewrite calculateLeaveDays_eq. by rewrite Z.sub_diag.
Qed.

Lemma calculateLeaveDays_ceil_symmetric_witness :
  calculateLeaveDays feb10 feb13 = inclusiveDayCount feb10 feb13.
Proof.
  apply (proj1 (calculateLeaveDays_ceil_symmetric feb10 feb13)).
  vm_compute. discriminate.
Defined.

(** C9, counterexample. From the earliest valid date to one millisecond
    past a whole number of days before the latest, the subtraction rounds
    the odd difference 17279999913600001 down to an exact 199999999 days:
    the code returns 200000000 where the formula gives 200000001. *)
Lemma calculateLeaveDays_rounds_far_dates :
  let a := -8640000000000000 in
  let b := 8639999913600001 in
  calculateLeaveDays a b = 200000000 ∧ inclusiveDayCount a b = 200000001.
Proof. split; vm_compute; reflexivity. Qed.

(** ** Quota manager *)

Lemma eqb_decide (s t : string) : String.eqb s t = bool_decide (s = t).
Proof. destruct (String.eqb_spec s t); [by rewrite bool_decide_true | by rewrite bool_decide_false]. Qed.

Lemma employee_update_found id f w e :
  employee w !! id = Some e →
  prisma.employee_update id f w = (Ok tt, set_employee <[id := f e]> w).
Proof. intros H. unfold prisma.employee_update, prisma.employee_findUnique. run. by rewrite H. Qed.

Lemma set_employee_id w e id :
  employee w !! id = Some e → set_employee <[id := e]> w = w.
Proof. intros H. destruct w; unfold set_employee; simpl in *. by rewrite insert_id. Qed.

Lemma checkAndReset_found clock id w e :
  employee w !! id = Some e →
  checkAndResetMonthlyQuota clock id w =
    (Ok (MkQuotaInfo (monthly_leave_quota e)
           (used_leave_days_this_month (rolled clock e))
           (monthly_leave_quota e - used_leave_days_this_month (rolled clock e))
           (negb (bool_decide (current_month e = getCurrentMonth clock)))),
     set_employee <[id := rolled clock e]> w).
Proof.
  intros H. unfold checkAndResetMonthlyQuota, prisma.employee_findUnique, rolled.
  run. rewrite H, eqb_decide. case_bool_decide; simpl.
  - rewrite decide_True by done. by rewrite set_employee_id.
  - rewrite decide_False by done. rewrite (employee_update_found _ _ _ e) by done.
    simpl. do 3 f_equal. lia.
Qed.

Lemma checkAndReset_missing clock id w :
  employee w !! id = None →
  checkAndResetMonthlyQuota clock id w = (Throw NotFound, w).
Proof.
  intros H. unfold checkAndResetMonthlyQuota, prisma.employee_findUnique.
  run. by rewrite H.
Qed.

Lemma rolled_month clock e : current_month (rolled clock e) = getCurrentMonth clock.
Proof. unfold rolled. by case_decide. Qed.

Lemma rolled_idem clock clock' e :
  getCurrentMonth clock' = getCurrentMonth clock →
  rolled clock' (rolled clock e) = rolled clock e.
Proof.
  intros H. unfold rolled at 1. rewrite rolled_month, H. by rewrite decide_True.
Qed.

Lemma lookup_set_employee_eq w id e :
  employee (set_employee <[id := e]> w) !! id = Some e.
Proof. destruct w; simpl. apply lookup_insert_eq. Qed.

Lemma set_employee_twice w id e e' :
  set_employee <[id := e']> (set_employee <[id := e]> w) = set_employee <[id := e']> w.
Proof. destruct w; unfold set_employee; simpl. by rewrite insert_insert_eq. Qed.

(** C6. Rollover of an existing employee: when the stored month differs
    from the clock's month label the row gets the new label and 0 used days
    and the result is [wasReset = true] with [remaining = quota]; when they
    are equal the row is unchanged and the result carries the stored
    counters with [wasReset = false]; a second call in the same month
    changes nothing and reports [wasReset = false]; a missing employee
    gives the not-found error. *)
Theorem checkAndResetMonthlyQuota_spec (clock : Js.Clock) (id : Z) (w : World) :
  (∀ e, employee w !! id = Some e →
        current_month e ≠ getCurrentMonth clock →
        checkAndResetMonthlyQuota clock id w =
          (Ok (MkQuotaInfo (monthly_leave_quota e) 0 (monthly_leave_quota e) true),
           set_employee
             <[id := MkEmployee (nama_lengkap e) (jabatan e) (getCurrentMonth clock)
                       (monthly_leave_quota e) 0]> w))
  ∧ (∀ e, employee w !! id = Some e →
          current_month e = getCurrentMonth clock →
          checkAndResetMonthlyQuota clock id w =
            (Ok (MkQuotaInfo (monthly_leave_quota e) (used_leave_days_this_month e)
                   (monthly_leave_quota e - used_leave_days_this_month e) false),
             w))
  ∧ (∀ e clock', employee w !! id = Some e →
          getCurrentMonth clock' = getCurrentMonth clock →
          ∃ info w1,
            checkAndResetMonthlyQuota clock id w = (Ok info, w1)
            ∧ ∃ info', checkAndResetMonthlyQuota clock' id w1 = (Ok info', w1)
                       ∧ wasReset info' = false)
  ∧ (employee w !! id = None →
     checkAndResetMonthlyQuota clock id w = (Throw NotFound, w)).
Proof.
  repeat split.
  - intros e He Hne. rewrite (checkAndReset_found _ _ _ e He).
    unfold rolled. rewrite decide_False, bool_decide_false by done.
    simpl. do 3 f_equal. lia.
  - intros e He Heq. rewrite (checkAndReset_found _ _ _ e He).
    unfold rolled. rewrite decide_True, bool_decide_true by done.
    simpl. by rewrite set_employee_id.
  - intros e clock' He Hm. do 2 eexists. split.
    { apply (checkAndReset_found _ _ _ e He). }
    eexists. split.
    { rewrite (checkAndReset_found _ _ _ (rolled clock e)) by apply lookup_set_employee_eq.
      rewrite rolled_idem by done. rewrite set_employee_twice. reflexivity. }
    simpl. rewrite rolled_month, Hm. by rewrite bool_decide_true.
  - apply checkAndReset_missing.
Qed.

Lemma updateEmployeeLeaveQuota_found clock id days w e :
  employee w !! id = Some e →
  updateEmployeeLeaveQuota clock id days w =
    let e1 := rolled clock e in
    if monthly_leave_quota e <? used_leave_days_this_month e1 + days then
      (Throw QuotaExceeded, set_employee <[id := e1]> w)
    else
      (Ok tt, set_employee <[id := with_used (used_leave_days_this_month e1 + days) e1]> w).
Proof.
  intros H. unfold updateEmployeeLeaveQuota. unfold bind at 1.
  rewrite (checkAndReset_found _ _ _ e H). unfold prisma.employee_findUnique. run.
  rewrite lookup_insert_eq.
  replace (monthly_leave_quota (rolled clock e)) with (monthly_leave_quota e)
    by (unfold rolled; by case_decide).
  destruct (_ <? _); [done|].
  rewrite (employee_update_found _ _ _ (rolled clock e)) by apply lookup_set_employee_eq.
  by rewrite set_employee_twice.
Qed.

(** C4. Consumption for an existing employee, with [used] the used days
    after the implicit rollover (0 when the stored month is not the current
    one): if [used + days] exceeds the quota the call fails with the
    quota-exceeded error and the row keeps [used]; otherwise it succeeds and
    the row holds exactly [used + days]. *)
Theorem updateEmployeeLeaveQuota_spec (clock : Js.Clock) (id days : Z) (w : World)
    (e : Employee) :
  employee w !! id = Some e →
  let used := if decide (current_month e = getCurrentMonth clock)
              then used_leave_days_this_month e else 0 in
  ∃ w1, (checkAndResetMonthlyQuota clock id w).2 = w1
    ∧ (used + days > monthly_leave_quota e →
       ∃ e1, updateEmployeeLeaveQuota clock id days w = (Throw QuotaExceeded, w1)
             ∧ employee w1 !! id = Some e1
             ∧ used_leave_days_this_month e1 = used)
    ∧ (used + days ≤ monthly_leave_quota e →
       ∃ w2 e2, updateEmployeeLeaveQuota clock id days w = (Ok tt, w2)
             ∧ employee w2 !! id = Some e2
             ∧ used_leave_days_this_month e2 = used + days
             ∧ monthly_leave_quota e2 = monthly_leave_quota e
             ∧ current_month e2 = getCurrentMonth clock).
Proof.
  intros He used. eexists. split; [reflexivity|].
  rewrite (checkAndReset_found _ _ _ e He), (updateEmployeeLeaveQuota_found _ _ _ _ e He).
  cbv zeta. simpl.
  assert (used_leave_days_this_month (rolled clock e) = used) as ->.
  { unfold rolled, used. by case_decide. }
  split.
  - intros Hgt. exists (rolled clock e).
    rewrite (proj2 (Z.ltb_lt _ _)) by lia.
    split; [done|]. split; [apply lookup_set_employee_eq|].
    unfold rolled, used. by case_decide.
  - intros Hle. do 2 eexists.
    rewrite (proj2 (Z.ltb_ge _ _)) by lia.
    split; [done|]. split; [apply lookup_set_employee_eq|].
    simpl. split; [done|]. split; [unfold rolled; by case_decide|apply rolled_month].
Qed.

Lemma restoreLeaveQuota_found clock id days w e :
  employee w !! id = Some e →
  restoreLeaveQuota clock id days w =
    (Ok tt,
     if decide (current_month e = getCurrentMonth clock) then
       set_employee <[id := with_used (Z.max 0 (used_leave_days_this_month e - days)) e]> w
     else w).
Proof.
  intros H. unfold restoreLeaveQuota, prisma.employee_findUnique. run.
  rewrite H, eqb_decide. case_bool_decide.
  - rewrite decide_True by done. by rewrite (employee_update_found _ _ _ e).
  - by rewrite decide_False.
Qed.

(** C5. Restore for an existing employee: when the stored month is the
    clock's month label the used days become [max 0 (used - days)], never
    negative; when it differs the whole state is unchanged; in both cases
    the stored month stays as it was (no rollover). *)
Theorem restoreLeaveQuota_spec (clock : Js.Clock) (id days : Z) (w : World)
    (e : Employee) :
  employee w !! id = Some e →
  ∃ w', restoreLeaveQuota clock id days w = (Ok tt, w')
    ∧ (current_month e = getCurrentMonth clock →
       ∃ e', employee w' !! id = Some e'
             ∧ used_leave_days_this_month e' = Z.max 0 (used_leave_days_this_month e - days)
             ∧ 0 ≤ used_leave_days_this_month e')
    ∧ (current_month e ≠ getCurrentMonth clock → w' = w)
    ∧ (∃ e', employee w' !! id = Some e' ∧ current_month e' = current_month e).
Proof.
  intros He. rewrite (restoreLeaveQuota_found _ _ _ _ e He). eexists. split; [done|].
  case_decide as Hm.
  - split; [|split].
    + intros _. eexists. split; [apply lookup_set_employee_eq|]. simpl. lia.
    + done.
    + eexists. split; [apply lookup_set_employee_eq|]. done.
  - split; [done|]. split; [done|]. eauto.
Qed.

Lemma rolled_quota_ok clock e : quota_ok e → quota_ok (rolled clock e).
Proof. unfold quota_ok, rolled. case_decide; simpl; lia. Qed.

Lemma run_call_quota_ok clock c w id e :
  employee w !! id = Some e →
  quota_ok e →
  (call_employee c = id → 0 ≤ call_days c) →
  ∃ e', employee (run_call clock c w).2 !! id = Some e' ∧ quota_ok e'.
Proof.
  intros He Hok Hd.
  assert (∀ j ej, (j = id → quota_ok ej) →
            ∃ e', employee (set_employee <[j := ej]> w) !! id = Some e' ∧ quota_ok e')
    as Hins.
  { intros j ej Hj. simpl. destruct (decide (j = id)) as [->|Hne].
    - rewrite lookup_insert_eq. eauto.
    - rewrite lookup_insert_ne by done. eauto. }
  destruct c as [j days|j days|j]; simpl in *.
  - destruct (employee w !! j) as [ej|] eqn:Hj.
    + rewrite (updateEmployeeLeaveQuota_found _ _ _ _ ej Hj). cbv zeta.
      assert (monthly_leave_quota (rolled clock ej) = monthly_leave_quota ej) as Hq
        by (unfold rolled; by case_decide).
      destruct (Z.ltb_spec (monthly_leave_quota ej)
                  (used_leave_days_this_month (rolled clock ej) + days)); simpl;
        apply Hins; intros ->; rewrite He in Hj; injection Hj as <-;
        pose proof (rolled_quota_ok clock e Hok) as Hr; [done|].
      specialize (Hd eq_refl). unfold quota_ok in *; simpl. lia.
    + unfold updateEmployeeLeaveQuota. unfold bind at 1.
      rewrite checkAndReset_missing by done. eauto.
  - destruct (employee w !! j) as [ej|] eqn:Hj.
    + rewrite (restoreLeaveQuota_found _ _ _ _ ej Hj). simpl.
      case_decide; [|eauto]. apply Hins. intros ->. rewrite He in Hj. injection Hj as <-.
      specialize (Hd eq_refl). unfold quota_ok in *; simpl. lia.
    + unfold restoreLeaveQuota, prisma.employee_findUnique. run. rewrite Hj. eauto.
  - unfold bind. destruct (employee w !! j) as [ej|] eqn:Hj.
    + rewrite (checkAndReset_found _ _ _ ej Hj). simpl.
      apply Hins. intros ->. rewrite He in Hj. injection Hj as <-.
      by apply rolled_quota_ok.
    + rewrite checkAndReset_missing by done. eauto.
Qed.

(** C1, as the code has it. An employee whose counters satisfy
    [0 <= used <= quota] still exists and still satisfies it after any
    sequence of consume, restore and rollover calls, each run to its end
    before the next starts, in which the calls for this employee carry
    non-negative day counts. *)
Theorem quota_invariant (calls : list (Js.Clock * QuotaCall)) (w : World) (id : Z)
    (e : Employee) :
  employee w !! id = Some e →
  quota_ok e →
  Forall (λ c, call_employee c.2 = id → 0 ≤ call_days c.2) calls →
  ∃ e', employee (run_calls calls w) !! id = Some e' ∧ quota_ok e'.
Proof.
  intros He Hok Hcalls. revert w e He Hok.
  induction Hcalls as [|[clock c] calls Hc _ IH]; intros w e He Hok; simpl; [eauto|].
  destruct (run_call_quota_ok clock c w id e He Hok Hc) as (e' & He' & Hok').
  by apply (IH _ e').
Qed.

Lemma quota_invariant_witness :
  ∃ e', employee (run_calls [(clock_feb, Consume 1 3); (clock_feb, Restore 1 2);
                             (clock_feb, Restore 2 (-5));
                             (clock_feb, RolloverIfNeeded 1); (clock_feb, Consume 1 9)]
                    world_budi) !! 1 = Some e'
        ∧ quota_ok e'.
Proof.
  apply (quota_invariant _ world_budi 1 budi).
  - reflexivity.
  - unfold quota_ok, budi; simpl. lia.
  - repeat constructor; simpl; lia.
Defined.

(** C1, counterexample. Neither [restoreLeaveQuota] nor
    [updateEmployeeLeaveQuota] checks the sign of its day count: for Budi,
    with 4 of 12 days used, a restore of -9 days leaves 13 used days, above
    the quota, and a consumption of -9 days leaves -5. *)
Lemma negative_days_break_quota_invariant :
  let after call := employee (run_calls [(clock_feb, call)] world_budi) !! 1 in
  employee world_budi !! 1 = Some budi
  ∧ quota_ok budi
  ∧ after (Restore 1 (-9)) = Some (MkEmployee "Budi" "Staff" "2025-02" 12 13)
  ∧ ¬ quota_ok (MkEmployee "Budi" "Staff" "2025-02" 12 13)
  ∧ after (Consume 1 (-9)) = Some (MkEmployee "Budi" "Staff" "2025-02" 12 (-5))
  ∧ ¬ quota_ok (MkEmployee "Budi" "Staff" "2025-02" 12 (-5)).
Proof.
  cbv zeta. split; [reflexivity|]. split; [unfold quota_ok, budi; simpl; lia|].
  split; [vm_compute; reflexivity|]. split; [unfold quota_ok; simpl; lia|].
  split; [vm_compute; reflexivity|]. unfold quota_ok; simpl; lia.
Qed.

Lemma checkAndResetMonthlyQuota_spec_witness :
  checkAndResetMonthlyQuota clock_feb 1 world_budi_jan =
    (Ok (MkQuotaInfo 12 0 12 true),
     set_employee <[1 := MkEmployee "Budi" "Staff" (getCurrentMonth clock_feb) 12 0]>
       world_budi_jan).
Proof.
  apply (proj1 (checkAndResetMonthlyQuota_spec clock_feb 1 world_budi_jan) budi_jan).
  - reflexivity.
  - vm_compute. discriminate.
Defined.

Lemma updateEmployeeLeaveQuota_spec_witness :
  ∃ w1, (checkAndResetMonthlyQuota clock_feb 1 world_budi).2 = w1
    ∧ (4 + 9 > 12 →
       ∃ e1, updateEmployeeLeaveQuota clock_feb 1 9 world_budi = (Throw QuotaExceeded, w1)
             ∧ employee w1 !! 1 = Some e1
             ∧ used_leave_days_this_month e1 = 4)
    ∧ (4 + 9 ≤ 12 →
       ∃ w2 e2, updateEmployeeLeaveQuota clock_feb 1 9 world_budi = (Ok tt, w2)
             ∧ employee w2 !! 1 = Some e2
             ∧ used_leave_days_this_month e2 = 4 + 9
             ∧ monthly_leave_quota e2 = 12
             ∧ current_month e2 = getCurrentMonth clock_feb).
Proof.
  apply (updateEmployeeLeaveQuota_spec clock_feb 1 9 world_budi budi).
  reflexivity.
Defined.

Lemma restoreLeaveQuota_spec_witness :
  ∃ w', restoreLeaveQuota clock_feb 1 3 world_budi_jan = (Ok tt, w')
    ∧ (current_month budi_jan = getCurrentMonth clock_feb →
       ∃ e', employee w' !! 1 = Some e'
             ∧ used_leave_days_this_month e' = Z.max 0 (4 - 3)
             ∧ 0 ≤ used_leave_days_this_month e')
    ∧ (current_month budi_jan ≠ getCurrentMonth clock_feb → w' = world_budi_jan)
    ∧ (∃ e', employee w' !! 1 = Some e' ∧ current_month e' = "2025-01").
Proof.
  apply (restoreLeaveQuota_spec clock_feb 1 3 world_budi_jan budi_jan).
  reflexivity.
Defined.

(** ** Leave-request workflow *)

Lemma leaveRequest_update_found id f w l :
  leaveRequest w !! id = Some l →
  prisma.leaveRequest_update id f w = (Ok (f l), set_leaveRequest <[id := f l]> w).
Proof.
  intros H. unfold prisma.leaveRequest_update, prisma.leaveRequest_findUnique.
  run. by rewrite H.
Qed.


Lemma put_status_no_consume clock id status_ w l :
  leaveRequest w !! id = Some l →
  String.eqb status_ "approved" && String.eqb (status l) "pending"
    && String.eqb (jenis_pengajuan l) "Cuti" = false →
  leaveRoutes.put_status clock id status_ w =
    (Ok (MkResponse 200 (LeaveJson id (leaveRoutes.with_status status_ l))),
     set_leaveRequest <[id := leaveRoutes.with_status status_ l]> w).
Proof.
  intros Hl Hc. unfold leaveRoutes.put_status, prisma.leaveRequest_findUnique.
  run. rewrite Hl, Hc. by rewrite (leaveRequest_update_found _ _ _ l Hl).
Qed.

(** C2, as the code has it. A request that is not pending (already approved
    or rejected) can still be transitioned: the operation succeeds and
    stores the requested status on the request, whose other fields and the
    other requests stay as they were. *)
Theorem put_status_from_terminal (clock : Js.Clock) (id : Z) (status_ : string)
    (w : World) (l : LeaveRequest) :
  leaveRequest w !! id = Some l →
  status l ≠ "pending" →
  ∃ w', leaveRoutes.put_status clock id status_ w =
          (Ok (MkResponse 200 (LeaveJson id (leaveRoutes.with_status status_ l))), w')
        ∧ leaveRequest w' = <[id := leaveRoutes.with_status status_ l]> (leaveRequest w)
        ∧ status <$> leaveRequest w' !! id = Some status_.
Proof.
  intros Hl Hs. eexists. split.
  - apply put_status_no_consume; [done|].
    rewrite (eqb_decide (status l)), bool_decide_false by done.
    by rewrite andb_false_r.
  - split; [done|]. simpl. by rewrite lookup_insert_eq.
Qed.

Lemma put_status_from_terminal_witness :
  ∃ w', leaveRoutes.put_status clock_feb 7 "rejected" (world_leave "approved") =
          (Ok (MkResponse 200
                 (LeaveJson 7 (leaveRoutes.with_status "rejected" (cuti_feb "approved")))), w')
        ∧ leaveRequest w'
          = <[7 := leaveRoutes.with_status "rejected" (cuti_feb "approved")]>
              (leaveRequest (world_leave "approved"))
        ∧ status <$> leaveRequest w' !! 7 = Some "rejected".
Proof.
  apply (put_status_from_terminal clock_feb 7 "rejected" (world_leave "approved")
           (cuti_feb "approved")).
  - reflexivity.
  - vm_compute. discriminate.
Defined.

(** C2, counterexample. An approved request is transitioned to rejected:
    the operation answers 200 and the stored status changes. *)
Lemma put_status_approved_to_rejected :
  let r := leaveRoutes.put_status clock_feb 7 "rejected" (world_leave "approved") in
  status <$> leaveRequest (world_leave "approved") !! 7 = Some "approved"
  ∧ code <$> (match r.1 with Ok res => Some res | Throw _ => None end) = Some 200
  ∧ status <$> leaveRequest r.2 !! 7 = Some "rejected".
Proof. vm_compute. done. Qed.

(** C3, at the failing input. Budi has used 4 of 12 days for an approved
    leave of 4 days in the current month. Rejecting that leave, or deleting
    it, leaves the used days at 4, where [restoreLeaveQuota] for the same
    employee and days would bring them back to 0: neither route calls it. *)
Theorem reject_or_delete_approved_keeps_used :
  let w := world_leave "approved" in
  let used_in (w' : World) := used_leave_days_this_month <$> employee w' !! 1 in
  used_in w = Some 4
  ∧ used_in (leaveRoutes.put_status clock_feb 7 "rejected" w).2 = Some 4
  ∧ status <$> leaveRequest (leaveRoutes.put_status clock_feb 7 "rejected" w).2 !! 7
      = Some "rejected"
  ∧ used_in (leaveRoutes.delete 7 w).2 = Some 4
  ∧ leaveRequest (leaveRoutes.delete 7 w).2 !! 7 = None
  ∧ used_in (restoreLeaveQuota clock_feb 1 4 w).2 = Some 0.
Proof. vm_compute. done. Qed.





(** C8, at the failing input. Siti has used 10 of 12 days and asks for a
    "Cuti" of 4 days with a file attached, already stored by the upload
    middleware. The request is refused for lack of quota and no record is
    created, but the file stays in the upload directory: the refusal returns
    from inside the [try] and never reaches the clean-up of the [catch].
    The same request for an unknown employee goes through the [catch], which
    removes the file. *)
Theorem post_quota_refusal_keeps_file :
  let w := MkWorld {[ 1 := siti ]} ∅ ∅ {[ "1_1739000000000_surat.pdf" ]} in
  let req employeeId :=
    leaveRoutes.MkPostRequest employeeId feb10 feb13 "Cuti" "liburan"
      (Some "1_1739000000000_surat.pdf") in
  let r := leaveRoutes.post clock_feb (req 1) w in
  let r' := leaveRoutes.post clock_feb (req 2) w in
  r.1 = Ok (MkResponse 400 (ErrorJson "Kuota tidak mencukupi! Sisa: 2 hari."))
  ∧ leaveRequest r.2 = ∅
  ∧ uploads r.2 = {[ "1_1739000000000_surat.pdf" ]}
  ∧ r'.1 = Ok (MkResponse 400
                 (ErrorDetailsJson "Gagal mengajukan." "Karyawan tidak ditemukan."))
  ∧ leaveRequest r'.2 = ∅
  ∧ uploads r'.2 = ∅.
Proof. cbv zeta. repeat split; vm_compute; reflexivity. Qed.

(** ** Absence ledger *)

Lemma attendance_update_found id f w a :
  attendance w !! id = Some a →
  prisma.attendance_update id f w = (Ok (f a), set_attendance <[id := f a]> w).
Proof.
  intros H. unfold prisma.attendance_update, prisma.attendance_findUnique.
  run. by rewrite H.
Qed.

Lemma insert_by_Permutation {A} (cmp : A → A → Z) x l :
  alphaRoutes.insert_by cmp x l ≡ₚ x :: l.
Proof.
  induction l as [|y l IH]; simpl; [done|].
  destruct (_ <=? _); [done|]. rewrite IH. apply perm_swap.
Qed.

Lemma sort_by_Permutation {A} (cmp : A → A → Z) l :
  alphaRoutes.sort_by cmp l ≡ₚ l.
Proof.
  induction l as [|x l IH]; simpl; [done|].
  rewrite insert_by_Permutation. by rewrite IH.
Qed.

Lemma sort_by_length {A} (cmp : A → A → Z) l :
  length (alphaRoutes.sort_by cmp l) = length l.
Proof. by rewrite sort_by_Permutation. Qed.

Lemma filter_keys_ne {A} (id : Z) (l : list (Z * A)) :
  id ∉ l.*1 → filter (λ kr, kr.1 ≠ id) l = l.
Proof.
  induction l as [|[k a] l IH]; simpl; [done|].
  intros Hn. apply not_elem_of_cons in Hn as [Hk Hl].
  rewrite filter_cons_True by (simpl; congruence). by rewrite IH.
Qed.

Lemma where_alpha_convert s e new_status ket username a :
  new_status ∈ ["hadir"; "izin"; "sakit"] →
  alphaRoutes.where_alpha s e (alphaRoutes.convert_data new_status ket username a) = false.
Proof.
  intros Hn. unfold alphaRoutes.where_alpha, alphaRoutes.convert_data. simpl.
  rewrite eqb_decide, bool_decide_false; [done|].
  intros ->. rewrite !elem_of_cons, elem_of_nil in Hn.
  destruct Hn as [|[|[|[]]]]; discriminate.
Qed.

(** The alpha records of a period after a record is overwritten by a
    converted one are those of before without that record. *)
Lemma alpha_rows_convert s e w id r new_status ket username :
  attendance w !! id = Some r →
  new_status ∈ ["hadir"; "izin"; "sakit"] →
  alpha_rows s e
    (set_attendance <[id := alphaRoutes.convert_data new_status ket username r]> w)
  ≡ₚ filter (λ kr, kr.1 ≠ id) (alpha_rows s e w).
Proof.
  intros Hr Hn. unfold alpha_rows. simpl.
  set (P := λ kr : Z * Attendance, alphaRoutes.where_alpha s e kr.2 = true).
  set (m0 := delete id (attendance w)).
  assert (id ∉ (map_to_list m0).*1) as Hfresh.
  { intros [[k a] [Hk Hin]]%list_elem_of_fmap. simpl in Hk. subst k.
    apply elem_of_map_to_list in Hin. unfold m0 in Hin.
    by rewrite lookup_delete_eq in Hin. }
  rewrite <- (insert_delete_eq (attendance w)). fold m0.
  rewrite (map_to_list_insert m0) by apply lookup_delete_eq.
  rewrite filter_cons_False
    by (unfold P; simpl; rewrite where_alpha_convert by done; discriminate).
  rewrite <- (map_to_list_delete (attendance w) id r Hr). fold m0.
  assert (id ∉ (filter P (map_to_list m0)).*1) as Hfresh'.
  { intros [kr [Hk Hin]]%list_elem_of_fmap. apply list_elem_of_filter in Hin as [_ Hin].
    apply Hfresh. apply list_elem_of_fmap. eauto. }
  destruct (decide (P (id, r))).
  - rewrite filter_cons_True by done. rewrite filter_cons_False by (simpl; congruence).
    by rewrite filter_keys_ne.
  - rewrite filter_cons_False by done. by rewrite filter_keys_ne.
Qed.

Lemma alpha_rows_convert_length s e w id r new_status ket username :
  attendance w !! id = Some r →
  att_status r = "alpa" →
  s ≤ tanggal r ≤ e →
  new_status ∈ ["hadir"; "izin"; "sakit"] →
  length (alpha_rows s e w) =
    S (length (alpha_rows s e
         (set_attendance <[id := alphaRoutes.convert_data new_status ket username r]> w))).
Proof.
  intros Hr Ha Hd Hn. rewrite (alpha_rows_convert s e w id r) by done.
  unfold alpha_rows.
  set (P := λ kr : Z * Attendance, alphaRoutes.where_alpha s e kr.2 = true).
  set (m0 := delete id (attendance w)).
  assert (id ∉ (filter P (map_to_list m0)).*1) as Hfresh.
  { intros [[k a] [Hk Hin]]%list_elem_of_fmap. simpl in Hk. subst k.
    apply list_elem_of_filter in Hin as [_ Hin].
    apply elem_of_map_to_list in Hin. unfold m0 in Hin.
    by rewrite lookup_delete_eq in Hin. }
  rewrite <- (map_to_list_delete (attendance w) id r Hr). fold m0.
  assert (P (id, r)) as HP.
  { unfold P, alphaRoutes.where_alpha. simpl. rewrite Ha. simpl.
    apply andb_true_intro. split; apply Z.leb_le; lia. }
  rewrite filter_cons_True by done. rewrite filter_cons_False by (simpl; congruence).
  by rewrite filter_keys_ne.
Qed.

Lemma existsb_eqb_elem (s : string) (l : list string) :
  s ∈ l → existsb (String.eqb s) l = true.
Proof.
  intros H. apply existsb_exists. exists s. split; [by apply list_elem_of_In|].
  apply String.eqb_refl.
Qed.

Lemma put_convert_alpa username id new_status ket w r :
  attendance w !! id = Some r →
  att_status r = "alpa" →
  new_status ∈ ["hadir"; "izin"; "sakit"] →
  let r' := alphaRoutes.convert_data new_status ket username r in
  let w' := set_attendance <[id := r']> w in
  alphaRoutes.put_convert username id new_status ket w =
    match employee w !! att_employee_id r with
    | Some e =>
      (Ok (MkResponse 200
             (ConvertedJson ("Alpha record berhasil diubah menjadi " ++ new_status) id
                (nama_lengkap e) (Js.beforeT (Js.toISOString (tanggal r)))
                "alpa" new_status (keterangan r') username)), w')
    | None =>
      (Ok (MkResponse 500
             (ErrorDetailsJson "Gagal mengubah alpha record"
                (exn_message alphaRoutes.TypeError))), w')
    end.
Proof.
  intros Hr Ha Hn r' w'. unfold alphaRoutes.put_convert.
  rewrite existsb_eqb_elem by done. unfold prisma.attendance_findUnique.
  run. rewrite Hr, Ha. simpl. rewrite (attendance_update_found _ _ _ r Hr).
  unfold alphaRoutes.employee_of, prisma.employee_findUnique. run.
  by destruct (employee w !! att_employee_id r).
Qed.

(** Grouping reads the employee table only, and succeeds when every record
    has its employee. *)
Lemma forEach_group_ok rows acc w :
  Forall (λ kr, is_Some (employee w !! att_employee_id kr.2)) rows →
  ∃ acc', alphaRoutes.forEach_group rows acc w = (Ok acc', w).
Proof.
  intros H. revert acc.
  induction H as [|[k a] rows [e He] _ IH]; intros acc; simpl; [by eexists|].
  unfold bind at 1. unfold alphaRoutes.group_record.
  unfold alphaRoutes.employee_of, prisma.employee_findUnique. run.
  simpl in He.
  destruct (acc !! att_employee_id a) as [[[[[i n] j] c] d]|]; simpl.
  - apply IH.
  - rewrite He. simpl. apply IH.
Qed.

Lemma alpha_rows_has_employee s e w :
  attendance_has_employee w →
  Forall (λ kr : Z * Attendance, is_Some (employee w !! att_employee_id kr.2))
    (alphaRoutes.orderBy_tanggal_desc (alpha_rows s e w)).
Proof.
  intros Hfk. unfold alphaRoutes.orderBy_tanggal_desc.
  rewrite sort_by_Permutation. apply Forall_forall. intros [k a] Hin.
  apply list_elem_of_filter in Hin as [_ Hin]. apply elem_of_map_to_list in Hin.
  apply (Hfk k a Hin).
Qed.

Lemma get_summary_totals clock w :
  attendance_has_employee w →
  let startDate :=
    Js.newDate clock (Js.getFullYear clock) (Js.getMonth clock) 1 0 0 0 in
  let endDate :=
    Js.newDate clock (Js.getFullYear clock) (Js.getMonth clock + 1) 0 23 59 59 in
  let n := Z.of_nat (length (alpha_rows startDate endDate w)) in
  ∃ all_employees,
    alphaRoutes.get_summary clock w =
      (Ok (MkResponse 200
             (SummaryJson (Js.getMonth clock + 1) (Js.getFullYear clock)
                n (n * 100000) (Z.of_nat (length all_employees))
                (take 10 all_employees) all_employees)), w).
Proof.
  intros Hfk startDate endDate n.
  unfold alphaRoutes.get_summary, prisma.attendance_findMany,
    try_catch, mapM, bind, gets, ret.
  cbv beta zeta.
  fold startDate endDate. fold (alpha_rows startDate endDate w).
  set (rows := alphaRoutes.orderBy_tanggal_desc (alpha_rows startDate endDate w)).
  assert (Z.of_nat (length rows) = n) as Hn.
  { unfold n, rows, alphaRoutes.orderBy_tanggal_desc. by rewrite sort_by_length. }
  destruct (forEach_group_ok rows ∅ w) as [acc Hacc].
  { by apply alpha_rows_has_employee. }
  rewrite Hacc, Hn. eexists. reflexivity.
Qed.

Lemma convert_has_employee w id r new_status ket username :
  attendance w !! id = Some r →
  attendance_has_employee w →
  attendance_has_employee
    (set_attendance <[id := alphaRoutes.convert_data new_status ket username r]> w).
Proof.
  intros Hr Hfk. unfold attendance_has_employee. simpl.
  apply map_Forall_insert_2; [|done]. simpl. apply (Hfk id r Hr).
Qed.

(** C10. Let [r] be the attendance record [id] and [new_status] one of
    "hadir", "izin", "sakit". If [r] is an alpha, the conversion stores the
    converted record; from then on, for every period, the alpha records
    selected are those of before without record [id] (one less when the
    date of [r] is in the period), and the summary of the current month
    reports their number and that number times 100000 as total deduction.
    If [r] is not an alpha, the conversion is refused with status 400 and
    nothing changes. *)
Theorem reclassified_alpha_is_excluded (username : string) (id : Z)
    (new_status ket : string) (w : World) (r : Attendance) :
  attendance w !! id = Some r →
  new_status ∈ ["hadir"; "izin"; "sakit"] →
  (att_status r = "alpa" →
   ∃ res w',
     alphaRoutes.put_convert username id new_status ket w = (Ok res, w')
     ∧ attendance w' !! id = Some (alphaRoutes.convert_data new_status ket username r)
     ∧ (is_Some (employee w !! att_employee_id r) → code res = 200)
     ∧ (∀ startDate endDate,
          (id ∉ (alpha_rows startDate endDate w').*1)
          ∧ alpha_rows startDate endDate w'
            ≡ₚ filter (λ kr, kr.1 ≠ id) (alpha_rows startDate endDate w)
          ∧ (startDate ≤ tanggal r ≤ endDate →
             length (alpha_rows startDate endDate w)
             = S (length (alpha_rows startDate endDate w'))))
     ∧ (attendance_has_employee w →
        ∀ clock,
          let startDate :=
            Js.newDate clock (Js.getFullYear clock) (Js.getMonth clock) 1 0 0 0 in
          let endDate :=
            Js.newDate clock (Js.getFullYear clock) (Js.getMonth clock + 1) 0 23 59 59 in
          let n := Z.of_nat (length (alpha_rows startDate endDate w')) in
          ∃ all_employees,
            alphaRoutes.get_summary clock w' =
              (Ok (MkResponse 200
                     (SummaryJson (Js.getMonth clock + 1) (Js.getFullYear clock)
                        n (n * 100000) (Z.of_nat (length all_employees))
                        (take 10 all_employees) all_employees)), w')))
  ∧ (att_status r ≠ "alpa" →
     alphaRoutes.put_convert username id new_status ket w =
       (Ok (MkResponse 400
              (ErrorStatusJson "Record ini bukan alpha record" (att_status r))), w)).
Proof.
  intros Hr Hn. split.
  - intros Ha.
    pose proof (put_convert_alpa username id new_status ket w r Hr Ha Hn) as Hc.
    cbv zeta in Hc.
    set (w' := set_attendance
                 <[id := alphaRoutes.convert_data new_status ket username r]> w) in *.
    assert (∃ res, alphaRoutes.put_convert username id new_status ket w = (Ok res, w')
                   ∧ (is_Some (employee w !! att_employee_id r) → code res = 200))
      as (res & Hres & H200).
    { rewrite Hc. destruct (employee w !! att_employee_id r) as [e0|].
      - eexists. split; [reflexivity|]. done.
      - eexists. split; [reflexivity|]. by intros [? ?]. }
    exists res, w'. split; [done|]. split; [|split; [done|split]].
    + apply lookup_insert_eq.
    + intros s e. split; [|split].
      * unfold w'. rewrite (alpha_rows_convert s e w id r) by done.
        intros [kr [Hk Hin]]%list_elem_of_fmap.
        apply list_elem_of_filter in Hin as [Hne _]. done.
      * by apply alpha_rows_convert.
      * intros Hd. by apply alpha_rows_convert_length.
    + intros Hfk clock. apply get_summary_totals. by apply convert_has_employee.
  - intros Hna. unfold alphaRoutes.put_convert.
    rewrite existsb_eqb_elem by done. unfold prisma.attendance_findUnique.
    run. rewrite Hr. rewrite (eqb_decide (att_status r)), bool_decide_false by done.
    reflexivity.
Qed.

Lemma reclassified_alpha_is_excluded_witness :
  ∃ res w',
    alphaRoutes.put_convert "admin" 5 "hadir" "" world_alpa = (Ok res, w')
    ∧ code res = 200
    ∧ (5 ∉ (alpha_rows feb10 feb13 w').*1)
    ∧ length (alpha_rows feb10 feb13 world_alpa) = S (length (alpha_rows feb10 feb13 w')).
Proof.
  destruct (reclassified_alpha_is_excluded "admin" 5 "hadir" "" world_alpa alpa_feb10)
    as [H _].
  - reflexivity.
  - constructor.
  - destruct (H eq_refl) as (res & w' & Hc & _ & H200 & Hrows & _).
    exists res, w'. split; [exact Hc|]. split.
    + apply H200. exists budi. reflexivity.
    + split; [apply Hrows|]. apply Hrows. unfold alpa_feb10, feb10, feb13; simpl. lia.
Defined.

(** ** Further properties of the quota manager *)

Lemma rolled_quota clock e : monthly_leave_quota (rolled clock e) = monthly_leave_quota e.
Proof. unfold rolled. by case_decide. Qed.

Lemma checkLeaveQuota_found clock id days w e :
  employee w !! id = Some e →
  checkLeaveQuota clock id days w =
    (Ok (MkQuotaCheck (monthly_leave_quota e)
           (used_leave_days_this_month (rolled clock e))
           (monthly_leave_quota e - used_leave_days_this_month (rolled clock e))
           days
           (days <=? monthly_leave_quota e - used_leave_days_this_month (rolled clock e))
           (getCurrentMonth clock)),
     set_employee <[id := rolled clock e]> w).
Proof.
  intros He. unfold checkLeaveQuota, bind.
  by rewrite (checkAndReset_found _ _ _ e He).
Qed.



(** A consumption that succeeded is undone by a restore of the same days in
    the same month: the row is back to what the rollover alone leaves. *)
Theorem consume_then_restore (clock clock' : Js.Clock) (id days : Z) (w w1 : World)
    (e : Employee) :
  employee w !! id = Some e →
  0 ≤ used_leave_days_this_month e →
  getCurrentMonth clock' = getCurrentMonth clock →
  updateEmployeeLeaveQuota clock id days w = (Ok tt, w1) →
  restoreLeaveQuota clock' id days w1 = (Ok tt, (checkAndResetMonthlyQuota clock id w).2).
Proof.
  intros He Hu Hm Hc.
  rewrite (updateEmployeeLeaveQuota_found _ _ _ _ e He) in Hc. cbv zeta in Hc.
  destruct (_ <? _); [done|]. injection Hc as <-.
  rewrite (restoreLeaveQuota_found _ _ _ _
             (with_used (used_leave_days_this_month (rolled clock e) + days)
                (rolled clock e))) by apply lookup_set_employee_eq.
  rewrite (checkAndReset_found _ _ _ e He). simpl.
  rewrite rolled_month, decide_True by done. rewrite set_employee_twice.
  do 3 f_equal. unfold with_used. simpl.
  assert (0 ≤ used_leave_days_this_month (rolled clock e))
    by (unfold rolled; case_decide; simpl; lia).
  replace (Z.max 0 _) with (used_leave_days_this_month (rolled clock e)) by lia.
  by destruct (rolled clock e).
Qed.

Lemma consume_then_restore_witness :
  restoreLeaveQuota clock_feb 1 3
    (MkWorld {[ 1 := MkEmployee "Budi" "Staff" "2025-02" 12 7 ]} ∅ ∅ ∅)
  = (Ok tt, (checkAndResetMonthlyQuota clock_feb 1 world_budi).2).
Proof.
  apply (consume_then_restore clock_feb clock_feb 1 3 world_budi _ budi).
  - reflexivity.
  - unfold budi; simpl; lia.
  - reflexivity.
  - vm_compute. reflexivity.
Defined.

Lemma run_call_allowance clock c w id :
  monthly_leave_quota <$> employee (run_call clock c w).2 !! id
  = monthly_leave_quota <$> employee w !! id.
Proof.
  assert (∀ j e e', employee w !! j = Some e →
            monthly_leave_quota e' = monthly_leave_quota e →
            monthly_leave_quota <$> <[j := e']> (employee w) !! id
            = monthly_leave_quota <$> employee w !! id) as Hins.
  { intros j e e' Hj Hq. destruct (decide (j = id)) as [->|Hne].
    - rewrite lookup_insert_eq, Hj. simpl. by rewrite Hq.
    - by rewrite lookup_insert_ne. }
  destruct c as [j days|j days|j]; simpl.
  - destruct (employee w !! j) as [e|] eqn:He.
    + rewrite (updateEmployeeLeaveQuota_found _ _ _ _ e He). cbv zeta.
      destruct (_ <? _); simpl; apply (Hins j e); auto using rolled_quota.
      simpl. apply rolled_quota.
    + unfold updateEmployeeLeaveQuota. unfold bind at 1.
      by rewrite checkAndReset_missing.
  - destruct (employee w !! j) as [e|] eqn:He.
    + rewrite (restoreLeaveQuota_found _ _ _ _ e He). simpl.
      case_decide; [|done]. by apply (Hins j e).
    + unfold restoreLeaveQuota, prisma.employee_findUnique. run. by rewrite He.
  - unfold bind. destruct (employee w !! j) as [e|] eqn:He.
    + rewrite (checkAndReset_found _ _ _ e He). simpl.
      apply (Hins j e); auto using rolled_quota.
    + by rewrite checkAndReset_missing.
Qed.

(** The quota manager never changes an allowance and never adds or removes
    an employee: after any sequence of consume, restore and rollover calls,
    every employee id has the monthly quota it had, or is still absent. *)
Theorem quota_manager_keeps_allowance (calls : list (Js.Clock * QuotaCall)) (w : World)
    (id : Z) :
  monthly_leave_quota <$> employee (run_calls calls w) !! id
  = monthly_leave_quota <$> employee w !! id.
Proof.
  revert w. induction calls as [|[clock c] calls IH]; intros w; simpl; [done|].
  rewrite IH. apply run_call_allowance.
Qed.

(** ** Further properties of the leave-request workflow *)

(** A leave always counts at least one day, and a leave from a date to the
    same time [k] days later counts [k + 1] days, for [k] up to 200000000,
    the number of days between the earliest and the latest valid date. *)
Theorem calculateLeaveDays_whole_days (a b k : Z) :
  1 ≤ calculateLeaveDays a b
  ∧ (0 ≤ k ≤ 200000000 → calculateLeaveDays a (a + k * 86400000) = k + 1).
Proof.
  split; [apply calculateLeaveDays_pos|].
  intros Hk.
  replace (a + k * 86400000) with (a + k * 86400000 + 0) by lia.
  assert (a + k * 86400000 + 0 - a = k * 86400000) as Hd by lia.
  assert (Z.abs (k * 86400000) = k * 86400000) as Ha by lia.
  rewrite calculateLeaveDays_of_exact; rewrite Hd, Ha.
  - rewrite (round_compat (inject_Z (k * 86400000) / inject_Z 86400000) (inject_Z k)).
    + assert (0 ≤ k ≤ 2 ^ 53 ∧ 0 ≤ k + 1 ≤ 2 ^ 53) as [Hk0 Hk1]
        by (change (2 ^ 53) with 9007199254740992; lia).
      rewrite (Qceiling_comp _ _ (round_int_small k Hk0)), Qceiling_Z.
      rewrite (Qfloor_comp _ _ (round_int_small (k + 1) Hk1)). apply Qfloor_Z.
    + rewrite inject_Z_mult. field.
  - apply round_int_even; [change (2 ^ 54) with 18014398509481984; lia|].
    rewrite Z.even_mul. by rewrite orb_true_r.
Qed.

Lemma calculateLeaveDays_whole_days_witness :
  calculateLeaveDays feb10 (feb10 + 3 * 86400000) = 3 + 1.
Proof. apply (calculateLeaveDays_whole_days feb10 0 3). lia. Defined.

Lemma next_id_bound {A} (m : gmap Z A) k :
  is_Some (m !! k) → k < prisma.next_id m.
Proof.
  unfold prisma.next_id. revert k.
  apply (map_fold_weak_ind
           (λ r (m : gmap Z A), ∀ k, is_Some (m !! k) → k < 1 + r)).
  - intros k [x Hx]. by rewrite lookup_empty in Hx.
  - intros i x m' r Hi IH k Hk. destruct (decide (i = k)) as [->|Hne]; [lia|].
    rewrite lookup_insert_ne in Hk by done. specialize (IH k Hk). lia.
Qed.

Lemma next_id_fresh {A} (m : gmap Z A) : m !! prisma.next_id m = None.
Proof.
  destruct (m !! prisma.next_id m) eqn:H; [|done].
  pose proof (next_id_bound m (prisma.next_id m) ltac:(by eexists)). lia.
Qed.

(** The row that [POST /] stores. *)
Lemma post_no_quota_check clock req w :
  String.eqb (leaveRoutes.body_jenis_pengajuan req) "Cuti" = false →
  String.eqb (leaveRoutes.body_jenis_pengajuan req) "Sakit"
    && negb (bool_decide (is_Some (leaveRoutes.file req))) = false →
  leaveRoutes.post clock req w =
    (Ok (MkResponse 201
           (CreatedJson (prisma.next_id (leaveRequest w)) (new_leave clock req)
              "Pengajuan berhasil dikirim.")),
     set_leaveRequest <[prisma.next_id (leaveRequest w) := new_leave clock req]> w).
Proof.
  intros Hc Hs. unfold leaveRoutes.post, try_catch. rewrite Hs, Hc. reflexivity.
Qed.

(** A "Sakit" request without the uploaded letter is refused with status
    400 before anything is read or written. *)
Theorem post_sakit_needs_file (clock : Js.Clock) (employeeId mulai selesai : Z)
    (alasan_ : string) (w : World) :
  leaveRoutes.post clock
    (leaveRoutes.MkPostRequest employeeId mulai selesai "Sakit" alasan_ None) w
  = (Ok (MkResponse 400 (ErrorJson "Surat keterangan sakit (PDF) wajib di-upload.")), w).
Proof. reflexivity. Qed.

(** A request that is neither a "Cuti" nor a "Sakit" without its letter is
    stored under a key no request had, as a pending request whose day count
    is the inclusive count of its dates (at least 1); the requests that were
    there, the employees and the uploaded files are untouched. *)
Theorem post_creates_pending (clock : Js.Clock) (req : leaveRoutes.PostRequest)
    (w : World) :
  leaveRoutes.body_jenis_pengajuan req ≠ "Cuti" →
  (leaveRoutes.body_jenis_pengajuan req = "Sakit" → is_Some (leaveRoutes.file req)) →
  ∃ id row w',
    leaveRoutes.post clock req w =
      (Ok (MkResponse 201 (CreatedJson id row "Pengajuan berhasil dikirim.")), w')
    ∧ leaveRequest w !! id = None
    ∧ leaveRequest w' = <[id := row]> (leaveRequest w)
    ∧ status row = "pending"
    ∧ employee_id row = leaveRoutes.user_employeeId req
    ∧ total_days row =
        calculateLeaveDays (leaveRoutes.body_tanggal_mulai req)
          (leaveRoutes.body_tanggal_selesai req)
    ∧ 1 ≤ total_days row
    ∧ attachment_filename row = leaveRoutes.file req
    ∧ employee w' = employee w
    ∧ uploads w' = uploads w.
Proof.
  intros Hc Hs. do 3 eexists. split.
  - apply post_no_quota_check.
    + by rewrite eqb_decide, bool_decide_false.
    + rewrite eqb_decide. case_bool_decide; [|done].
      by rewrite bool_decide_true by auto.
  - split; [apply next_id_fresh|]. simpl.
    repeat split. apply calculateLeaveDays_pos.
Qed.

Lemma post_creates_pending_witness :
  ∃ id row w',
    leaveRoutes.post clock_feb
      (leaveRoutes.MkPostRequest 1 feb10 feb13 "Sakit" "demam" (Some "1_1_surat.pdf"))
      (world_leave "approved")
    = (Ok (MkResponse 201 (CreatedJson id row "Pengajuan berhasil dikirim.")), w')
    ∧ leaveRequest (world_leave "approved") !! id = None
    ∧ status row = "pending"
    ∧ total_days row = 4.
Proof.
  destruct (post_creates_pending clock_feb
              (leaveRoutes.MkPostRequest 1 feb10 feb13 "Sakit" "demam"
                 (Some "1_1_surat.pdf"))
              (world_leave "approved"))
    as (id & row & w' & Hp & Hf & _ & Hs & _ & Hd & _).
  - simpl. discriminate.
  - intros _. simpl. by eexists.
  - exists id, row, w'. split; [exact Hp|]. split; [exact Hf|]. split; [exact Hs|].
    rewrite Hd. vm_compute. reflexivity.
Defined.

Lemma post_cuti_found clock req w e :
  leaveRoutes.body_jenis_pengajuan req = "Cuti" →
  employee w !! leaveRoutes.user_employeeId req = Some e →
  leaveRoutes.post clock req w =
    let w1 := set_employee <[leaveRoutes.user_employeeId req := rolled clock e]> w in
    let sisa := monthly_leave_quota e - used_leave_days_this_month (rolled clock e) in
    if total_days (new_leave clock req) <=? sisa then
      (Ok (MkResponse 201
             (CreatedJson (prisma.next_id (leaveRequest w)) (new_leave clock req)
                "Pengajuan berhasil dikirim.")),
       set_leaveRequest <[prisma.next_id (leaveRequest w) := new_leave clock req]> w1)
    else
      (Ok (MkResponse 400
             (ErrorJson ("Kuota tidak mencukupi! Sisa: " ++ pretty sisa ++ " hari."))),
       w1).
Proof.
  intros Hj He. unfold leaveRoutes.post, try_catch, new_leave. rewrite !Hj.
  change (String.eqb "Cuti" "Sakit") with false.
  change (String.eqb "Cuti" "Cuti") with true.
  cbv beta iota zeta. unfold andb. unfold bind at 1.
  rewrite (checkLeaveQuota_found _ _ _ _ e He).
  cbn [qc_sufficient qc_remaining total_days negb].
  destruct (_ <=? _); reflexivity.
Qed.

(** Creating a "Cuti" request for an existing employee checks the quota
    after the implicit rollover and never consumes it: when the days fit in
    what remains, a pending request is stored under a fresh key and the
    employee row is only rolled over; when they do not, the answer is 400
    with the remaining days, and no request is stored. *)
Theorem post_cuti_checks_quota (clock : Js.Clock) (req : leaveRoutes.PostRequest)
    (w : World) (e : Employee) :
  leaveRoutes.body_jenis_pengajuan req = "Cuti" →
  employee w !! leaveRoutes.user_employeeId req = Some e →
  let days := calculateLeaveDays (leaveRoutes.body_tanggal_mulai req)
                (leaveRoutes.body_tanggal_selesai req) in
  let used := if decide (current_month e = getCurrentMonth clock)
              then used_leave_days_this_month e else 0 in
  let sisa := monthly_leave_quota e - used in
  ∃ res w',
    leaveRoutes.post clock req w = (Ok res, w')
    ∧ employee w' = employee (checkAndResetMonthlyQuota clock
                                (leaveRoutes.user_employeeId req) w).2
    ∧ (used_leave_days_this_month <$> employee w' !! leaveRoutes.user_employeeId req
       = Some used)
    ∧ (days ≤ sisa →
       ∃ id row, res = MkResponse 201 (CreatedJson id row "Pengajuan berhasil dikirim.")
         ∧ leaveRequest w !! id = None
         ∧ leaveRequest w' = <[id := row]> (leaveRequest w)
         ∧ status row = "pending" ∧ total_days row = days)
    ∧ (sisa < days →
       res = MkResponse 400
               (ErrorJson ("Kuota tidak mencukupi! Sisa: " ++ pretty sisa ++ " hari."))
       ∧ leaveRequest w' = leaveRequest w).
Proof.
  intros Hj He days used sisa.
  assert (used_leave_days_this_month (rolled clock e) = used) as Hu
    by (unfold rolled, used; by case_decide).
  rewrite (post_cuti_found _ _ _ e Hj He), (checkAndReset_found _ _ _ e He).
  cbv zeta. rewrite Hu. fold sisa. change (total_days (new_leave clock req)) with days.
  destruct (Z.leb_spec days sisa) as [Hle|Hgt]; do 2 eexists;
    (split; [reflexivity|]); (split; [reflexivity|]);
    (split; [simpl; rewrite lookup_insert_eq; simpl; by rewrite Hu|]).
  - split; [|lia]. intros _. do 2 eexists. split; [reflexivity|].
    split; [apply next_id_fresh|]. done.
  - split; [lia|]. done.
Qed.

Lemma post_cuti_checks_quota_witness :
  ∃ res w',
    leaveRoutes.post clock_feb
      (leaveRoutes.MkPostRequest 1 feb10 feb13 "Cuti" "liburan" None) world_budi
    = (Ok res, w')
    ∧ used_leave_days_this_month <$> employee w' !! 1 = Some 4
    ∧ ∃ id row, res = MkResponse 201 (CreatedJson id row "Pengajuan berhasil dikirim.")
                ∧ status row = "pending" ∧ total_days row = 4.
Proof.
  destruct (post_cuti_checks_quota clock_feb
              (leaveRoutes.MkPostRequest 1 feb10 feb13 "Cuti" "liburan" None)
              world_budi budi)
    as (res & w' & Hp & _ & Hu & Hok & _); [reflexivity..|].
  exists res, w'. split; [exact Hp|]. split.
  - cbn [leaveRoutes.user_employeeId] in Hu. rewrite Hu. vm_compute. reflexivity.
  - destruct Hok as (id & row & Hr & _ & _ & Hs & Hd).
    + vm_compute. discriminate.
    + exists id, row. split; [exact Hr|]. split; [exact Hs|].
      rewrite Hd. vm_compute. reflexivity.
Defined.

(** A "Cuti" request of an employee that does not exist goes through the
    [catch]: the answer is 400 with the not-found message, nothing is
    stored, and the uploaded file, if there is one, is removed from the
    upload directory. *)
Theorem post_cuti_unknown_employee (clock : Js.Clock) (req : leaveRoutes.PostRequest)
    (w : World) :
  leaveRoutes.body_jenis_pengajuan req = "Cuti" →
  employee w !! leaveRoutes.user_employeeId req = None →
  ∃ w',
    leaveRoutes.post clock req w =
      (Ok (MkResponse 400
             (ErrorDetailsJson "Gagal mengajukan." "Karyawan tidak ditemukan.")), w')
    ∧ leaveRequest w' = leaveRequest w
    ∧ employee w' = employee w
    ∧ uploads w' = match leaveRoutes.file req with
                   | Some filename => uploads w ∖ {[ filename ]}
                   | None => uploads w
                   end.
Proof.
  intros Hj He. unfold leaveRoutes.post, try_catch. rewrite Hj.
  change (String.eqb "Cuti" "Sakit") with false.
  change (String.eqb "Cuti" "Cuti") with true.
  cbv beta iota zeta. unfold andb. unfold bind at 1.
  unfold checkLeaveQuota. unfold bind at 1.
  rewrite (checkAndReset_missing _ _ _ He). cbv beta iota.
  unfold existsSync, unlinkSync. run.
  destruct (leaveRoutes.file req) as [filename|]; simpl.
  - case_bool_decide; simpl; eexists; (split; [reflexivity|]); repeat split.
    simpl. apply set_eq. intros x. rewrite elem_of_difference, elem_of_singleton.
    split; [intros Hx; split; [done|by intros ->]|by intros [? _]].
  - eexists. split; [reflexivity|]. done.
Qed.

Lemma post_cuti_unknown_employee_witness :
  ∃ w',
    leaveRoutes.post clock_feb
      (leaveRoutes.MkPostRequest 2 feb10 feb13 "Cuti" "liburan" (Some "2_1_surat.pdf"))
      (MkWorld {[ 1 := budi ]} ∅ ∅ {[ "2_1_surat.pdf" ]})
    = (Ok (MkResponse 400
             (ErrorDetailsJson "Gagal mengajukan." "Karyawan tidak ditemukan.")), w')
    ∧ leaveRequest w' = ∅
    ∧ uploads w' = {[ "2_1_surat.pdf" ]} ∖ {[ "2_1_surat.pdf" ]}.
Proof.
  destruct (post_cuti_unknown_employee clock_feb
              (leaveRoutes.MkPostRequest 2 feb10 feb13 "Cuti" "liburan"
                 (Some "2_1_surat.pdf"))
              (MkWorld {[ 1 := budi ]} ∅ ∅ {[ "2_1_surat.pdf" ]}))
    as (w' & Hp & Hl & _ & Hu); [reflexivity..|].
  exists w'. split; [exact Hp|]. split; [exact Hl|exact Hu].
Defined.



(** An id that no request has: the status update and the deletion answer
    404 and change nothing. *)
Theorem unknown_request_is_404 (clock : Js.Clock) (id : Z) (status_ : string) (w : World) :
  leaveRequest w !! id = None →
  leaveRoutes.put_status clock id status_ w
    = (Ok (MkResponse 404 (ErrorJson "Data tidak ditemukan.")), w)
  ∧ leaveRoutes.delete id w
    = (Ok (MkResponse 404 (ErrorJson "Data tidak ditemukan.")), w).
Proof.
  intros Hl. unfold leaveRoutes.put_status, leaveRoutes.delete,
    prisma.leaveRequest_findUnique. run. by rewrite Hl.
Qed.

Lemma unknown_request_is_404_witness :
  leaveRoutes.put_status clock_feb 8 "approved" (world_leave "pending")
    = (Ok (MkResponse 404 (ErrorJson "Data tidak ditemukan.")), world_leave "pending")
  ∧ leaveRoutes.delete 8 (world_leave "pending")
    = (Ok (MkResponse 404 (ErrorJson "Data tidak ditemukan.")), world_leave "pending").
Proof. apply unknown_request_is_404. reflexivity. Defined.

(** Deleting a request that exists removes it and its attachment file from
    the upload directory, whatever its status, and leaves the other
    requests and the employee table untouched. *)
Theorem delete_removes_request_and_file (id : Z) (w : World) (l : LeaveRequest) :
  leaveRequest w !! id = Some l →
  ∃ w',
    leaveRoutes.delete id w = (Ok (MkResponse 200 (MessageJson "Berhasil dihapus.")), w')
    ∧ leaveRequest w' = delete id (leaveRequest w)
    ∧ employee w' = employee w
    ∧ attendance w' = attendance w
    ∧ uploads w' = match attachment_filename l with
                   | Some filename =>
                     if decide (filename = "") then uploads w
                     else uploads w ∖ {[ filename ]}
                   | None => uploads w
                   end.
Proof.
  intros Hl. unfold leaveRoutes.delete, prisma.leaveRequest_delete,
    prisma.leaveRequest_findUnique, existsSync, unlinkSync. run. rewrite Hl.
  destruct (attachment_filename l) as [filename|]; simpl.
  - rewrite eqb_decide. case_bool_decide as Hf; simpl.
    + rewrite Hl. eexists. split; [reflexivity|]. rewrite decide_True by done. done.
    + rewrite decide_False by done.
      case_bool_decide as Hin; simpl; rewrite Hl; eexists;
        (split; [reflexivity|]); repeat split.
      simpl. apply set_eq. intros x. rewrite elem_of_difference, elem_of_singleton.
      split; [intros Hx; split; [done|by intros ->]|by intros [? _]].
  - rewrite Hl. eexists. split; [reflexivity|]. done.
Qed.

Lemma delete_removes_request_and_file_witness :
  ∃ w',
    leaveRoutes.delete 7 (world_leave "pending")
      = (Ok (MkResponse 200 (MessageJson "Berhasil dihapus.")), w')
    ∧ leaveRequest w' = delete 7 (leaveRequest (world_leave "pending"))
    ∧ employee w' = employee (world_leave "pending").
Proof.
  destruct (delete_removes_request_and_file 7 (world_leave "pending") (cuti_feb "pending"))
    as (w' & Hd & Hl & He & _); [reflexivity|].
  exists w'. split; [exact Hd|]. split; [exact Hl|exact He].
Defined.

(** The quota display refuses a request without an employee id (absent or
    0) with status 400 and no change; otherwise it rolls the month over
    first and reports the stored allowance, the used days and their
    difference; for an employee that does not exist it answers 500 and
    changes nothing. *)
Theorem get_quota_reports_after_rollover (clock : Js.Clock) (id : Z) (w : World) :
  leaveRoutes.get_quota clock None w
    = (Ok (MkResponse 400 (ErrorJson "Employee ID tidak ditemukan.")), w)
  ∧ leaveRoutes.get_quota clock (Some 0) w
    = (Ok (MkResponse 400 (ErrorJson "Employee ID tidak ditemukan.")), w)
  ∧ (∀ e, id ≠ 0 →
          employee w !! id = Some e →
          let used := if decide (current_month e = getCurrentMonth clock)
                      then used_leave_days_this_month e else 0 in
          leaveRoutes.get_quota clock (Some id) w =
            (Ok (MkResponse 200
                   (QuotaJson (nama_lengkap e) (getCurrentMonth clock)
                      (monthly_leave_quota e) used (monthly_leave_quota e - used))),
             (checkAndResetMonthlyQuota clock id w).2))
  ∧ (id ≠ 0 →
     employee w !! id = None →
     leaveRoutes.get_quota clock (Some id) w =
       (Ok (MkResponse 500 (ErrorJson "Gagal mengambil kuota.")), w)).
Proof.
  split; [reflexivity|]. split; [reflexivity|]. split.
  - intros e Hid He used.
    assert (used_leave_days_this_month (rolled clock e) = used) as Hu
      by (unfold rolled, used; by case_decide).
    unfold leaveRoutes.get_quota, try_catch.
    rewrite (proj2 (Z.eqb_neq id 0)) by done. unfold bind at 1.
    rewrite (checkAndReset_found _ _ _ e He). cbv beta iota.
    unfold prisma.employee_findUnique. run. rewrite lookup_insert_eq.
    rewrite Hu, rolled_quota.
    replace (nama_lengkap (rolled clock e)) with (nama_lengkap e)
      by (unfold rolled; by case_decide).
    reflexivity.
  - intros Hid He. unfold leaveRoutes.get_quota, try_catch.
    rewrite (proj2 (Z.eqb_neq id 0)) by done. unfold bind at 1.
    by rewrite (checkAndReset_missing _ _ _ He).
Qed.

Lemma get_quota_reports_after_rollover_witness :
  leaveRoutes.get_quota clock_feb (Some 1) world_budi_jan =
    (Ok (MkResponse 200 (QuotaJson "Budi" (getCurrentMonth clock_feb) 12
           (if decide (current_month budi_jan = getCurrentMonth clock_feb)
            then used_leave_days_this_month budi_jan else 0)
           (12 - (if decide (current_month budi_jan = getCurrentMonth clock_feb)
                  then used_leave_days_this_month budi_jan else 0)))),
     (checkAndResetMonthlyQuota clock_feb 1 world_budi_jan).2).
Proof.
  destruct (get_quota_reports_after_rollover clock_feb 1 world_budi_jan)
    as (_ & _ & H & _).
  apply (H budi_jan); [discriminate|reflexivity].
Defined.

(** ** Further properties of the absence ledger *)

Lemma alpha_rows_delete s e w id r :
  attendance w !! id = Some r →
  alpha_rows s e (set_attendance (delete id) w)
  ≡ₚ filter (λ kr, kr.1 ≠ id) (alpha_rows s e w).
Proof.
  intros Hr. unfold alpha_rows. simpl.
  set (P := λ kr : Z * Attendance, alphaRoutes.where_alpha s e kr.2 = true).
  set (m0 := delete id (attendance w)).
  assert (id ∉ (filter P (map_to_list m0)).*1) as Hfresh.
  { intros [[k a] [Hk Hin]]%list_elem_of_fmap. simpl in Hk. subst k.
    apply list_elem_of_filter in Hin as [_ Hin].
    apply elem_of_map_to_list in Hin. unfold m0 in Hin.
    by rewrite lookup_delete_eq in Hin. }
  rewrite <- (map_to_list_delete (attendance w) id r Hr). fold m0.
  destruct (decide (P (id, r))).
  - rewrite filter_cons_True by done. rewrite filter_cons_False by (simpl; congruence).
    by rewrite filter_keys_ne.
  - rewrite filter_cons_False by done. by rewrite filter_keys_ne.
Qed.

(** Removing an attendance record from the ledger: an id that no record has
    gives 404, a record that is not an alpha gives 400, and in both cases
    nothing changes; an alpha record is deleted, the other records stay, and
    from then on the alpha records of every period are those of before
    without it. The answer is 200 when the record's employee exists. *)
Theorem delete_remove_only_alpha (username reason : string) (id : Z) (w : World) :
  (attendance w !! id = None →
   alphaRoutes.delete_remove username id reason w
     = (Ok (MkResponse 404 (ErrorJson "Record tidak ditemukan")), w))
  ∧ (∀ r, attendance w !! id = Some r →
          att_status r ≠ "alpa" →
          alphaRoutes.delete_remove username id reason w
            = (Ok (MkResponse 400
                     (ErrorStatusJson "Record ini bukan alpha record" (att_status r))), w))
  ∧ (∀ r, attendance w !! id = Some r →
          att_status r = "alpa" →
          ∃ res w',
            alphaRoutes.delete_remove username id reason w = (Ok res, w')
            ∧ attendance w' = delete id (attendance w)
            ∧ employee w' = employee w
            ∧ (is_Some (employee w !! att_employee_id r) → code res = 200)
            ∧ ∀ startDate endDate,
                alpha_rows startDate endDate w'
                ≡ₚ filter (λ kr, kr.1 ≠ id) (alpha_rows startDate endDate w)).
Proof.
  split; [|split].
  - intros Hr. unfold alphaRoutes.delete_remove, prisma.attendance_findUnique.
    run. by rewrite Hr.
  - intros r Hr Hs. unfold alphaRoutes.delete_remove, prisma.attendance_findUnique.
    run. rewrite Hr, eqb_decide, bool_decide_false by done. reflexivity.
  - intros r Hr Hs.
    assert (∃ res, alphaRoutes.delete_remove username id reason w
                   = (Ok res, set_attendance (delete id) w)
                   ∧ (is_Some (employee w !! att_employee_id r) → code res = 200))
      as (res & Hres & H200).
    { unfold alphaRoutes.delete_remove, prisma.attendance_delete,
        prisma.attendance_findUnique, alphaRoutes.employee_of,
        prisma.employee_findUnique.
      run. rewrite Hr, Hs. simpl. rewrite Hr. simpl.
      destruct (employee w !! att_employee_id r) as [e0|]; simpl.
      - eexists. split; [reflexivity|]. done.
      - eexists. split; [reflexivity|]. by intros [? ?]. }
    exists res, (set_attendance (delete id) w).
    split; [exact Hres|]. split; [done|]. split; [done|]. split; [exact H200|].
    intros s e. by apply (alpha_rows_delete s e w id r).
Qed.

Lemma delete_remove_only_alpha_witness :
  ∃ res w',
    alphaRoutes.delete_remove "admin" 5 "salah input" world_alpa = (Ok res, w')
    ∧ attendance w' = delete 5 (attendance world_alpa)
    ∧ code res = 200.
Proof.
  destruct (proj2 (proj2 (delete_remove_only_alpha "admin" "salah input" 5 world_alpa))
              alpa_feb10) as (res & w' & Hd & Ha & _ & H200 & _); [reflexivity..|].
  exists res, w'. split; [exact Hd|]. split; [exact Ha|].
  apply H200. exists budi. reflexivity.
Defined.

(** A conversion to a status other than "hadir", "izin" or "sakit" is
    refused with status 400 before any record is looked up: nothing
    changes, whether the record exists or not. *)
Theorem put_convert_validates_status (username : string) (id : Z)
    (new_status ket : string) (w : World) :
  new_status ∉ ["hadir"; "izin"; "sakit"] →
  alphaRoutes.put_convert username id new_status ket w
    = (Ok (MkResponse 400
             (ErrorProvidedJson "Status harus: hadir, izin, atau sakit" new_status)), w).
Proof.
  intros Hn. unfold alphaRoutes.put_convert.
  assert (existsb (String.eqb new_status) ["hadir"; "izin"; "sakit"] = false) as ->.
  { apply not_true_iff_false. intros [s [Hin Heq]]%existsb_exists.
    apply String.eqb_eq in Heq. subst s. by apply list_elem_of_In in Hin. }
  reflexivity.
Qed.

Lemma put_convert_validates_status_witness :
  alphaRoutes.put_convert "admin" 5 "alpa" "" world_alpa
    = (Ok (MkResponse 400
             (ErrorProvidedJson "Status harus: hadir, izin, atau sakit" "alpa")), world_alpa).
Proof.
  apply put_convert_validates_status.
  rewrite !not_elem_of_cons. repeat split; try discriminate. apply not_elem_of_nil.
Defined.



Lemma count_for_snoc k rows kr :
  count_for k (rows ++ [kr]) =
    count_for k rows + (if decide (att_employee_id kr.2 = k) then 1 else 0).
Proof.
  unfold count_for. rewrite filter_app, length_app.
  destruct (decide (att_employee_id kr.2 = k)).
  - rewrite (filter_cons_True _ kr []) by done. simpl. lia.
  - rewrite (filter_cons_False _ kr []) by done. simpl. lia.
Qed.

Lemma count_for_nonneg k rows : 0 ≤ count_for k rows.
Proof. unfold count_for. lia. Qed.

Lemma count_for_Permutation k rows rows' :
  rows ≡ₚ rows' → count_for k rows = count_for k rows'.
Proof. intros H. unfold count_for. by rewrite H. Qed.

Lemma group_record_found acc a w e :
  employee w !! att_employee_id a = Some e →
  ∃ s, alphaRoutes.group_record acc a w = (Ok (<[att_employee_id a := s]> acc), w)
       ∧ match acc !! att_employee_id a with
         | Some s0 =>
           entry_id s = entry_id s0
           ∧ alphaRoutes.entry_count s = alphaRoutes.entry_count s0 + 1
           ∧ alphaRoutes.entry_deduction s = alphaRoutes.entry_deduction s0 + 100000
         | None =>
           entry_id s = att_employee_id a
           ∧ alphaRoutes.entry_count s = 1
           ∧ alphaRoutes.entry_deduction s = 100000
         end.
Proof.
  intros He. unfold alphaRoutes.group_record, alphaRoutes.employee_of,
    prisma.employee_findUnique. run.
  destruct (acc !! att_employee_id a) as [[[[[i n] j] c] d]|]; simpl.
  - eexists. split; [reflexivity|]. done.
  - rewrite He. simpl. eexists. split; [reflexivity|]. done.
Qed.

Lemma grouped_step seen acc kr s :
  grouped seen acc →
  match acc !! att_employee_id kr.2 with
  | Some s0 =>
    entry_id s = entry_id s0
    ∧ alphaRoutes.entry_count s = alphaRoutes.entry_count s0 + 1
    ∧ alphaRoutes.entry_deduction s = alphaRoutes.entry_deduction s0 + 100000
  | None =>
    entry_id s = att_employee_id kr.2
    ∧ alphaRoutes.entry_count s = 1
    ∧ alphaRoutes.entry_deduction s = 100000
  end →
  grouped (seen ++ [kr]) (<[att_employee_id kr.2 := s]> acc).
Proof.
  intros Hg Hs k. rewrite count_for_snoc.
  destruct (decide (att_employee_id kr.2 = k)) as [Hk|Hk].
  - subst k. rewrite lookup_insert_eq. specialize (Hg (att_employee_id kr.2)).
    destruct (acc !! att_employee_id kr.2) as [s0|].
    + destruct Hg as (? & ? & ? & ?), Hs as (? & ? & ?). repeat split; lia.
    + destruct Hs as (? & ? & ?). repeat split; lia.
  - rewrite lookup_insert_ne by done. specialize (Hg k).
    destruct (acc !! k); [|lia]. destruct Hg as (? & ? & ? & ?). repeat split; lia.
Qed.

Lemma forEach_group_grouped rows seen acc w :
  Forall (λ kr, is_Some (employee w !! att_employee_id kr.2)) rows →
  grouped seen acc →
  ∃ acc', alphaRoutes.forEach_group rows acc w = (Ok acc', w)
          ∧ grouped (seen ++ rows) acc'.
Proof.
  intros H. revert seen acc.
  induction H as [|[k a] rows [e He] _ IH]; intros seen acc Hg; simpl.
  - exists acc. split; [done|]. by rewrite app_nil_r.
  - unfold bind at 1. simpl in He.
    destruct (group_record_found acc a w e He) as (s & -> & Hs).
    destruct (IH (seen ++ [(k, a)])%list (<[att_employee_id a := s]> acc))
      as (acc' & Hf & Hg').
    { by apply (grouped_step seen acc (k, a) s). }
    exists acc'. split; [exact Hf|]. by rewrite <- app_assoc in Hg'.
Qed.

Lemma insert_by_Sorted {A} (cmp : A → A → Z) x l :
  (∀ a b, ¬ cmp a b ≤ 0 → cmp b a ≤ 0) →
  Sorted (λ a b, cmp a b ≤ 0) l →
  Sorted (λ a b, cmp a b ≤ 0) (alphaRoutes.insert_by cmp x l).
Proof.
  intros Htot Hl. induction Hl as [|y l Hl IH Hhd]; simpl.
  - by repeat constructor.
  - destruct (Z.leb_spec (cmp x y) 0) as [Hxy|Hxy].
    + constructor; [by constructor|]. by constructor.
    + constructor; [exact IH|].
      destruct Hhd as [|z l' Hyz]; simpl.
      * constructor. apply Htot. lia.
      * destruct (cmp x z <=? 0); constructor; [apply Htot; lia|done].
Qed.

Lemma sort_by_Sorted {A} (cmp : A → A → Z) l :
  (∀ a b, ¬ cmp a b ≤ 0 → cmp b a ≤ 0) →
  Sorted (λ a b, cmp a b ≤ 0) (alphaRoutes.sort_by cmp l).
Proof.
  intros Htot. induction l as [|x l IH]; simpl; [constructor|].
  by apply insert_by_Sorted.
Qed.

Lemma Sorted_weaken {A} (R R' : A → A → Prop) l :
  (∀ a b, R a b → R' a b) → Sorted R l → Sorted R' l.
Proof.
  intros HR Hl. induction Hl as [|x l Hl IH Hhd]; constructor; [done|].
  destruct Hhd; constructor. by apply HR.
Qed.

Lemma entry_ids_keys (l : list (Z * alphaRoutes.Entry)) :
  Forall (λ ks, entry_id ks.2 = ks.1) l → entry_id <$> l.*2 = l.*1.
Proof.
  induction 1 as [|[k s] l Hk _ IH]; [done|].
  rewrite !fmap_cons. cbn [fst snd] in *. by rewrite Hk, IH.
Qed.

Lemma elem_of_object_values acc s :
  s ∈ alphaRoutes.object_values acc ↔ ∃ k, acc !! k = Some s.
Proof.
  unfold alphaRoutes.object_values. rewrite sort_by_Permutation, list_elem_of_fmap.
  split.
  - intros [[k s'] [-> Hin]]. exists k. by apply elem_of_map_to_list.
  - intros [k Hk]. exists (k, s). split; [done|]. by apply elem_of_map_to_list.
Qed.

(** The per-employee part of the summary of the current month, when every
    record has its employee: the employees come in descending order of
    their number of alphas; no employee id is listed twice, and an employee
    is listed exactly when it has an alpha record in the month; its entry
    carries the number of its alpha records in the month and 100000 for
    each. *)
Theorem get_summary_per_employee (clock : Js.Clock) (w : World) :
  attendance_has_employee w →
  let startDate :=
    Js.newDate clock (Js.getFullYear clock) (Js.getMonth clock) 1 0 0 0 in
  let endDate :=
    Js.newDate clock (Js.getFullYear clock) (Js.getMonth clock + 1) 0 23 59 59 in
  let rows := alpha_rows startDate endDate w in
  ∃ m y n d all_employees,
    alphaRoutes.get_summary clock w =
      (Ok (MkResponse 200
             (SummaryJson m y n d (Z.of_nat (length all_employees))
                (take 10 all_employees) all_employees)), w)
    ∧ Sorted (λ a b, alphaRoutes.entry_count b ≤ alphaRoutes.entry_count a) all_employees
    ∧ (∀ s, s ∈ all_employees →
            alphaRoutes.entry_count s = count_for (entry_id s) rows
            ∧ 1 ≤ alphaRoutes.entry_count s
            ∧ alphaRoutes.entry_deduction s = alphaRoutes.entry_count s * 100000)
    ∧ NoDup (entry_id <$> all_employees)
    ∧ (∀ k a, (k, a) ∈ rows →
              ∃ s, s ∈ all_employees ∧ entry_id s = att_employee_id a).
Proof.
  intros Hfk startDate endDate rows.
  unfold alphaRoutes.get_summary, prisma.attendance_findMany,
    try_catch, mapM, bind, gets, ret.
  cbv beta zeta.
  fold startDate endDate. fold (alpha_rows startDate endDate w). fold rows.
  set (sorted_rows := alphaRoutes.orderBy_tanggal_desc rows).
  destruct (forEach_group_grouped sorted_rows [] ∅ w) as (acc & Hacc & Hg).
  { by apply alpha_rows_has_employee. }
  { intros k. by rewrite lookup_empty. }
  rewrite Hacc. simpl in Hg.
  assert (∀ k, count_for k sorted_rows = count_for k rows) as Hcount.
  { intros k. apply count_for_Permutation. apply sort_by_Permutation. }
  set (all := alphaRoutes.sort_by _ (alphaRoutes.object_values acc)).
  assert (∀ s, s ∈ all ↔ ∃ k, acc !! k = Some s) as Hall.
  { intros s. unfold all. rewrite sort_by_Permutation. apply elem_of_object_values. }
  exists (Js.getMonth clock + 1), (Js.getFullYear clock),
    (Z.of_nat (length sorted_rows)), (Z.of_nat (length sorted_rows) * 100000), all.
  split; [reflexivity|]. split; [|split; [|split]].
  - unfold all.
    apply (Sorted_weaken
             (λ a b, alphaRoutes.entry_count b - alphaRoutes.entry_count a ≤ 0));
      [intros; lia|].
    apply (sort_by_Sorted
             (λ a b, alphaRoutes.entry_count b - alphaRoutes.entry_count a)).
    intros; lia.
  - intros s [k Hk]%Hall. specialize (Hg k). rewrite Hk in Hg.
    destruct Hg as (Hid & Hc & Hd & H1). rewrite Hid, <- Hcount. done.
  - unfold all, alphaRoutes.object_values. rewrite !sort_by_Permutation.
    rewrite (entry_ids_keys (map_to_list acc)); [apply NoDup_fst_map_to_list|].
    apply Forall_forall. intros [k s] Hk%elem_of_map_to_list.
    specialize (Hg k). rewrite Hk in Hg. by destruct Hg.
  - intros k a Hin. pose proof (Hg (att_employee_id a)) as H1.
    destruct (acc !! att_employee_id a) as [s|] eqn:Hs.
    + exists s. split; [apply Hall; eauto|]. by destruct H1.
    + exfalso. rewrite Hcount in H1. unfold count_for in H1.
      assert ((k, a) ∈ filter (λ kr : Z * Attendance,
                                 att_employee_id kr.2 = att_employee_id a) rows) as Hf
        by (by apply list_elem_of_filter).
      destruct (filter _ rows); [by apply elem_of_nil in Hf|simpl in H1; lia].
Qed.

Lemma get_summary_per_employee_witness :
  ∃ m y n d all_employees,
    alphaRoutes.get_summary clock_feb world_alpa =
      (Ok (MkResponse 200
             (SummaryJson m y n d (Z.of_nat (length all_employees))
                (take 10 all_employees) all_employees)), world_alpa)
    ∧ Sorted (λ a b, alphaRoutes.entry_count b ≤ alphaRoutes.entry_count a) all_employees
    ∧ NoDup (entry_id <$> all_employees).
Proof.
  destruct (get_summary_per_employee clock_feb world_alpa)
    as (m & y & n & d & all & Hs & Hsorted & _ & Hnd & _).
  - apply map_Forall_insert_2; [by exists budi|].
    apply map_Forall_singleton. by exists budi.
  - exists m, y, n, d, all. split; [exact Hs|]. split; [exact Hsorted|exact Hnd].
Defined.
